(** * prisma-orpc-generator: procedure synthesis, shield rules, error mapping

    A shallow embedding of the generator's decision logic
    (src/generators/code-generator.ts, src/generators/shield-generator.ts,
    src/utils/operation-utils.ts, src/utils/model-utils.ts and
    src/utils/code-generation-utils.ts) together with the run-time behaviour
    of the handlers it emits.

    The generator emits TypeScript text.  Each emitted fragment is kept as a
    constructor of a small syntax of handlers ([CallStmt], [Handler]) and the
    meaning of the fragment is given by an evaluator over JavaScript values,
    so that statements about "the synthesized call shape" are statements about
    what the emitted handler passes to the data-access layer. *)

From Stdlib Require Import String Ascii List ZArith Bool Lia DecimalString.
Import ListNotations.
Open Scope string_scope.
Open Scope bool_scope.

(* ================================================================== *)
(** ** JavaScript string and array primitives used by the generators *)
(* ================================================================== *)

Module Js.

(** ASCII case mapping.  Prisma model and operation identifiers are ASCII
    (a letter followed by letters, digits and underscores), where
    [toLowerCase] and [toUpperCase] act on the 26 letters only. *)
Definition toLowerAscii (c : ascii) : ascii :=
  let n := nat_of_ascii c in
  if (65 <=? n)%nat && (n <=? 90)%nat then ascii_of_nat (n + 32) else c.

Definition toUpperAscii (c : ascii) : ascii :=
  let n := nat_of_ascii c in
  if (97 <=? n)%nat && (n <=? 122)%nat then ascii_of_nat (n - 32) else c.

Fixpoint toLowerCase (s : string) : string :=
  match s with
  | EmptyString => EmptyString
  | String c r => String (toLowerAscii c) (toLowerCase r)
  end.

Fixpoint toUpperCase (s : string) : string :=
  match s with
  | EmptyString => EmptyString
  | String c r => String (toUpperAscii c) (toUpperCase r)
  end.

(** [s.charAt(0)]: the first character as a string, [""] on the empty string. *)
Definition charAt0 (s : string) : string :=
  match s with
  | EmptyString => EmptyString
  | String c _ => String c EmptyString
  end.

(** [s.slice(1)] *)
Definition slice1 (s : string) : string :=
  match s with
  | EmptyString => EmptyString
  | String _ r => r
  end.

(** [s.slice(n)] for a non-negative [n] *)
Fixpoint sliceFrom (n : nat) (s : string) : string :=
  match n, s with
  | O, _ => s
  | S k, EmptyString => EmptyString
  | S k, String _ r => sliceFrom k r
  end.

(** [s.replace(pat, rep)] with a string pattern: the first occurrence only. *)
Fixpoint replaceFirst (pat rep s : string) : string :=
  if String.prefix pat s then rep ++ sliceFrom (String.length pat) s
  else match s with
       | EmptyString => EmptyString
       | String c r => String c (replaceFirst pat rep r)
       end.

(** [arr.includes(x)] on an array of strings *)
Definition includes (arr : list string) (x : string) : bool :=
  existsb (String.eqb x) arr.

(** Truthiness of a string: [""] is falsy. *)
Definition nonEmpty (s : string) : bool :=
  match s with EmptyString => false | _ => true end.

(** [Record<string,string>] lookup: [tbl[k]], [None] standing for [undefined].
    This is the lookup of the source for every key that is not inherited
    from [Object.prototype]; for the inherited names ([constructor],
    [toString], ..., listed in [JsDomain.objectPrototypeNames]) the source
    reads the inherited member, which this function does not model. *)
Fixpoint lookup {A : Type} (tbl : list (string * A)) (k : string) : option A :=
  match tbl with
  | [] => None
  | (k', v) :: r => if String.eqb k k' then Some v else lookup r k
  end.

End Js.

(* ================================================================== *)
(** ** Data model (src/types/generator-types.ts, config/schema) *)
(* ================================================================== *)

(** The fields of [PrismaField] / [CodeGenField] the synthesis logic reads. *)
Record PrismaField := mkField {
  f_name : string;
  f_type : string;
  f_isId : bool;
  f_isList : bool;
  f_kind : string
}.

Record PrismaModel := mkModel {
  m_name : string;
  m_fields : list PrismaField
}.

(** The options of [Config] the synthesis logic reads. *)
Record Config := mkConfig {
  showModelNameInProcedure : bool;
  generateModelActions : list string;
  enableSoftDeletes : bool;
  wrapResponses : bool;
  defaultReadRule : string;
  defaultWriteRule : string
}.

(** One element of [dmmf.mappings.modelOperations]: the [model] key and the
    remaining entries in [Object.entries] order. *)
Record ModelMapping := mkMapping {
  mm_model : string;
  mm_entries : list (string * string)
}.

(* ================================================================== *)
(** ** src/utils/operation-utils.ts *)
(* ================================================================== *)

Module OperationUtils.

Definition getInputTypeByOpName (opType modelName : string) : option string :=
  Js.lookup
    [ ("create", modelName ++ "CreateInput");
      ("createMany", modelName ++ "CreateInput");
      ("findFirst", modelName ++ "WhereInput");
      ("findMany", modelName ++ "WhereInput");
      ("findUnique", modelName ++ "WhereUniqueInput");
      ("update", modelName ++ "UpdateArgs");
      ("updateMany", modelName ++ "UpdateManyArgs");
      ("upsert", modelName ++ "UpsertArgs");
      ("delete", modelName ++ "WhereUniqueInput");
      ("deleteMany", modelName ++ "WhereInput");
      ("count", modelName ++ "WhereInput");
      ("aggregate", modelName ++ "WhereInput");
      ("groupBy", modelName ++ "WhereInput") ] opType.

Definition getOutputTypeByOpName (opType modelName : string) : option string :=
  match
    Js.lookup
      [ ("create", Some modelName);
        ("createMany", Some (modelName ++ "CountOutput"));
        ("findFirst", Some modelName);
        ("findMany", Some (modelName ++ "Array"));
        ("findUnique", Some modelName);
        ("update", Some modelName);
        ("updateMany", Some (modelName ++ "CountOutput"));
        ("upsert", Some modelName);
        ("delete", Some modelName);
        ("deleteMany", Some (modelName ++ "CountOutput"));
        ("count", Some (modelName ++ "CountOutput"));
        ("aggregate", None);
        ("groupBy", Some (modelName ++ "Array")) ] opType
  with
  | Some r => r
  | None => None
  end.

(** [config.generateModelActions.includes(opType)] *)
Definition shouldGenerateOperation (opType : string) (config : Config) : bool :=
  Js.includes (generateModelActions config) opType.

Definition getPrismaMethodName (opType : string) : string :=
  match
    Js.lookup
      [ ("create", "create"); ("createMany", "createMany");
        ("findFirst", "findFirst"); ("findMany", "findMany");
        ("findUnique", "findUnique"); ("update", "update");
        ("updateMany", "updateMany"); ("upsert", "upsert");
        ("delete", "delete"); ("deleteMany", "deleteMany");
        ("count", "count"); ("aggregate", "aggregate");
        ("groupBy", "groupBy") ] opType
  with
  | Some m => if Js.nonEmpty m then m else opType
  | None => opType
  end.

End OperationUtils.

(* ================================================================== *)
(** ** JavaScript values seen by the emitted handlers *)
(* ================================================================== *)

Module JsValue.

(** Handler inputs, data-layer results and thrown errors are untyped at run
    time ([input as any], [error: unknown]).  Numbers are integers ([take],
    [skip], counts, HTTP statuses) plus [NaN]; [VDate t] is a [Date] object
    with time value [t]. *)
#[local] Unset Elimination Schemes.
Inductive value : Type :=
| VUndefined
| VNull
| VBool (b : bool)
| VNum (n : Z)
| VNaN
| VStr (s : string)
| VDate (t : Z)
| VArr (elems : list value)
| VObj (props : list (string * value)).
#[local] Set Elimination Schemes.

(** ToBoolean *)
Definition truthy (v : value) : bool :=
  match v with
  | VUndefined | VNull | VNaN => false
  | VBool b => b
  | VNum n => negb (n =? 0)%Z
  | VStr s => Js.nonEmpty s
  | VDate _ | VArr _ | VObj _ => true
  end.

Definition isUndefined (v : value) : bool :=
  match v with VUndefined => true | _ => false end.

(** [typeof v === 'string'], [typeof v === 'number'] *)
Definition typeofString (v : value) : bool :=
  match v with VStr _ => true | _ => false end.

Definition typeofNumber (v : value) : bool :=
  match v with VNum _ | VNaN => true | _ => false end.

(** [v === 'lit'] for a string literal *)
Definition strictEqStr (v : value) (lit : string) : bool :=
  match v with VStr s => String.eqb s lit | _ => false end.

(** The decimal property key of an array index. *)
Definition indexKey (i : nat) : string :=
  NilEmpty.string_of_uint (Nat.to_uint i).

Fixpoint arrGet (l : list value) (i : nat) (k : string) : value :=
  match l with
  | [] => VUndefined
  | x :: r => if String.eqb k (indexKey i) then x else arrGet r (S i) k
  end.

Fixpoint strGet (s : string) (i : nat) (k : string) : value :=
  match s with
  | EmptyString => VUndefined
  | String c r =>
      if String.eqb k (indexKey i) then VStr (String c EmptyString)
      else strGet r (S i) k
  end.

Fixpoint arrEntries (l : list value) (i : nat) : list (string * value) :=
  match l with
  | [] => []
  | x :: r => (indexKey i, x) :: arrEntries r (S i)
  end.

Fixpoint strEntries (s : string) (i : nat) : list (string * value) :=
  match s with
  | EmptyString => []
  | String c r => (indexKey i, VStr (String c EmptyString)) :: strEntries r (S i)
  end.

Definition field (ps : list (string * value)) (k : string) : value :=
  match Js.lookup ps k with
  | Some v => v
  | None => VUndefined
  end.

(** [o.k].  [None] is the TypeError raised on [undefined] and [null].
    Prototype members are not modelled: the keys read here ([where], [data],
    [by], [take], [deletedAt], [code], ...) are not members of
    [Object.prototype], [Array.prototype] or [Date.prototype]. *)
Definition getProp (o : value) (k : string) : option value :=
  match o with
  | VUndefined | VNull => None
  | VObj ps => Some (field ps k)
  | VArr l =>
      Some (if String.eqb k "length" then VNum (Z.of_nat (List.length l))
            else arrGet l 0 k)
  | VStr s =>
      Some (if String.eqb k "length" then VNum (Z.of_nat (String.length s))
            else strGet s 0 k)
  | VBool _ | VNum _ | VNaN | VDate _ => Some VUndefined
  end.

(** [o?.k] *)
Definition optProp (o : value) (k : string) : value :=
  match getProp o k with
  | Some v => v
  | None => VUndefined
  end.

(** Assignment to a property of an object literal or dictionary, keeping the
    position of an existing key. *)
Fixpoint setField (ps : list (string * value)) (k : string) (v : value)
  : list (string * value) :=
  match ps with
  | [] => [(k, v)]
  | (k', v') :: r =>
      if String.eqb k k' then (k, v) :: r else (k', v') :: setField r k v
  end.

(** [o.k = v] in strict-mode code (the emitted routers are ES modules).
    [None] is the TypeError raised when [o] is a primitive.  The one place
    that assigns into a caller-supplied value is [where.deletedAt = null];
    [where] is declared a dictionary.  Arrays and dates, which lie outside
    that type, take the property in JavaScript; this function does not model
    that and is the assignment of the source on plain objects and primitives
    only ([JsDomain.plainOrPrimitive]). *)
Definition setProp (o : value) (k : string) (v : value) : option value :=
  match o with
  | VObj ps => Some (VObj (setField ps k v))
  | _ => None
  end.

(** [{ ...v }] *)
Definition spread (v : value) : list (string * value) :=
  match v with
  | VObj ps => ps
  | VArr l => arrEntries l 0
  | VStr s => strEntries s 0
  | _ => []
  end.

(** [key in obj] guarded by [typeof obj === 'object' && obj !== null] *)
Definition hasProp (obj : value) (key : string) : bool :=
  match obj with
  | VObj ps => match Js.lookup ps key with Some _ => true | None => false end
  | VArr l =>
      String.eqb key "length"
      || existsb (fun e => String.eqb key (fst e)) (arrEntries l 0)
  | _ => false
  end.

(** [typeof err === 'object' && err !== null] *)
Definition isObject (v : value) : bool :=
  match v with VObj _ | VArr _ | VDate _ => true | _ => false end.

(** [Math.min(v, 500)] for a [take] of the declared type, an integer
    number; booleans, [null] and dates coerce as in ToNumber.  Strings,
    arrays and objects, which ToNumber may turn into a number, and
    fractional or infinite numbers are outside this model: the function is
    used for integer [take] only. *)
Definition mathMin500 (v : value) : value :=
  match v with
  | VNum n => VNum (Z.min n 500)
  | VBool true => VNum 1
  | VBool false => VNum 0
  | VNull => VNum 0
  | VDate t => VNum (Z.min t 500)
  | _ => VNaN
  end.

End JsValue.

Import JsValue.

(* ================================================================== *)
(** ** src/utils/model-utils.ts *)
(* ================================================================== *)

Module ModelUtils.

(** [hasSoftDeleteField]: a field named [deletedAt] of type [DateTime]. *)
Definition hasSoftDeleteField (model : PrismaModel) : bool :=
  existsb (fun f => String.eqb (f_name f) "deletedAt"
                    && String.eqb (f_type f) "DateTime")
          (m_fields model).

Record Aggregations := mkAggregations {
  hasNumericFields : bool;
  hasComparableFields : bool;
  supportsSum : bool;
  supportsAvg : bool;
  supportsMin : bool;
  supportsMax : bool;
  supportsCount : bool
}.

Definition numericTypes : list string := ["Int"; "Float"; "Decimal"; "BigInt"].

Definition comparableTypes : list string := numericTypes ++ ["DateTime"; "String"].

Definition numericFields (model : PrismaModel) : list PrismaField :=
  filter (fun f => Js.includes numericTypes (f_type f) && negb (f_isList f))
         (m_fields model).

Definition comparableFields (model : PrismaModel) : list PrismaField :=
  filter (fun f => Js.includes comparableTypes (f_type f) && negb (f_isList f))
         (m_fields model).

Definition getAvailableAggregations (model : PrismaModel) : Aggregations :=
  let n := (0 <? List.length (numericFields model))%nat in
  let c := (0 <? List.length (comparableFields model))%nat in
  {| hasNumericFields := n;
     hasComparableFields := c;
     supportsSum := n;
     supportsAvg := n;
     supportsMin := c;
     supportsMax := c;
     supportsCount := true |}.

End ModelUtils.

(* ================================================================== *)
(** ** src/utils/code-generation-utils.ts: [generateHandlerCode] *)
(* ================================================================== *)

Module CodeGenerationUtils.

Import ModelUtils.

(** The [inputParam] expression chosen by the first [switch]. *)
Inductive InputParam : Type :=
| IPData                           (* { data: input.data } *)
| IPInput                          (* input *)
| IPWhere                          (* { where: input.where } *)
| IPWhereData (softFilter : bool)  (* { where: ..., data: input.data } *)
| IPUpsert.                        (* { where, create, update } *)

(** The statement that computes [result], one constructor per emitted
    template. *)
Inductive CallStmt : Type :=
| SoftReadCall (prismaMethod : string)
| SoftFindUniqueCall
| SoftDeleteCall
| SoftDeleteManyCall
| GroupByCall (aggregations : Aggregations)
| AggregateCall
| DeleteCall
| DeleteManyCall
| DirectCall (prismaMethod : string) (inputParam : InputParam).

(** The "handle not found cases" block. *)
Inductive NotFoundStmt : Type :=
| NoNotFoundCheck
| ThrowIfNull
| ThrowIfNullOrDeleted.

(** The [return] statement. *)
Inductive ReturnStmt : Type :=
| ReturnWrappedCount   (* createSuccessResponse({ count: result }, ...) *)
| ReturnWrapped        (* createSuccessResponse(result, ...) *)
| ReturnCount          (* { count: result } *)
| ReturnResult.        (* result *)

Record Handler := mkHandler {
  h_baseOpType : string;
  h_modelName : string;
  h_modelVar : string;
  h_call : CallStmt;
  h_notFound : NotFoundStmt;
  h_return : ReturnStmt
}.

Definition hasDeletedAt (model : PrismaModel) : bool :=
  existsb (fun f => String.eqb (f_name f) "deletedAt") (m_fields model).

Definition selectInputParam (baseOpType : string) (config : Config)
  (model : PrismaModel) : InputParam :=
  if String.eqb baseOpType "create" then IPData
  else if String.eqb baseOpType "createMany" then IPInput
  else if String.eqb baseOpType "findFirst" || String.eqb baseOpType "findMany"
  then IPInput
  else if String.eqb baseOpType "findUnique" then IPWhere
  else if String.eqb baseOpType "update" || String.eqb baseOpType "updateMany"
  then IPWhereData (enableSoftDeletes config && hasDeletedAt model)
  else if String.eqb baseOpType "delete" || String.eqb baseOpType "deleteMany"
  then IPWhere
  else if String.eqb baseOpType "count" || String.eqb baseOpType "aggregate"
          || String.eqb baseOpType "groupBy"
  then IPInput
  else if String.eqb baseOpType "upsert" then IPUpsert
  else IPInput.

Definition softReadOps : list string :=
  ["findFirst"; "findMany"; "count"; "aggregate"; "groupBy"].

Definition selectCall (baseOpType : string) (config : Config)
  (model : PrismaModel) : CallStmt :=
  let soft := (enableSoftDeletes config || hasDeletedAt model) && hasDeletedAt model in
  if soft && Js.includes softReadOps baseOpType
  then SoftReadCall (OperationUtils.getPrismaMethodName baseOpType)
  else if soft && String.eqb baseOpType "findUnique" then SoftFindUniqueCall
  else if soft && String.eqb baseOpType "delete" then SoftDeleteCall
  else if soft && String.eqb baseOpType "deleteMany" then SoftDeleteManyCall
  else if String.eqb baseOpType "groupBy"
  then GroupByCall (getAvailableAggregations model)
  else if String.eqb baseOpType "aggregate" then AggregateCall
  else if String.eqb baseOpType "delete" then DeleteCall
  else if String.eqb baseOpType "deleteMany" then DeleteManyCall
  else DirectCall (OperationUtils.getPrismaMethodName baseOpType)
                  (selectInputParam baseOpType config model).

Definition selectNotFound (baseOpType : string) (config : Config)
  (model : PrismaModel) : NotFoundStmt :=
  if String.eqb baseOpType "findUnique" || String.eqb baseOpType "findFirst"
  then if (enableSoftDeletes config || hasDeletedAt model) && hasDeletedAt model
       then ThrowIfNullOrDeleted
       else ThrowIfNull
  else NoNotFoundCheck.

Definition selectReturn (baseOpType : string) (config : Config) : ReturnStmt :=
  if wrapResponses config
  then if String.eqb baseOpType "count" then ReturnWrappedCount else ReturnWrapped
  else if String.eqb baseOpType "count" then ReturnCount else ReturnResult.

Definition generateHandlerCode (baseOpType modelName operationName : string)
  (config : Config) (model : PrismaModel) : Handler :=
  {| h_baseOpType := baseOpType;
     h_modelName := modelName;
     h_modelVar := Js.toLowerCase modelName;
     h_call := selectCall baseOpType config model;
     h_notFound := selectNotFound baseOpType config model;
     h_return := selectReturn baseOpType config |}.

End CodeGenerationUtils.

(* ================================================================== *)
(** ** Run-time meaning of the emitted handler templates *)
(* ================================================================== *)

Module Runtime.

Import ModelUtils CodeGenerationUtils.

(** [ctx.prisma.<delegate>.<method>(<args>)] *)
Record Call := mkCall {
  c_delegate : string;
  c_method : string;
  c_args : value
}.

(** What awaiting the data-access promise gives. *)
Inductive PrismaResult : Type :=
| Resolved (result : value)
| Rejected (error : value).

(** The environment of one handler invocation: the data-access layer, and
    the clock read by [new Date()] and [new Date().toISOString()]. *)
Record Env := mkEnv {
  prisma : Call -> PrismaResult;
  nowDate : Z;
  nowIso : string
}.

Inductive Thrown : Type :=
| ORPCError (code : string) (message : string)
| TypeError
| DataLayerError (error : value).

Inductive Outcome : Type :=
| Return (v : value)
| Throw (e : Thrown).

Definition bind {A B : Type} (x : option A) (k : A -> option B) : option B :=
  match x with
  | Some a => k a
  | None => None
  end.

Notation "x <- e ;; k" := (bind e (fun x => k))
  (at level 61, e at next level, right associativity).

Definition evalInputParam (ip : InputParam) (input : value) : option value :=
  match ip with
  | IPData =>
      d <- getProp input "data" ;;
      Some (VObj [("data", d)])
  | IPInput => Some input
  | IPWhere =>
      w <- getProp input "where" ;;
      Some (VObj [("where", w)])
  | IPWhereData false =>
      w <- getProp input "where" ;;
      d <- getProp input "data" ;;
      Some (VObj [("where", w); ("data", d)])
  | IPWhereData true =>
      w <- getProp input "where" ;;
      d <- getProp input "data" ;;
      Some (VObj [("where", VObj (setField (spread w) "deletedAt" VNull));
                  ("data", d)])
  | IPUpsert =>
      w <- getProp input "where" ;;
      c <- getProp input "create" ;;
      u <- getProp input "update" ;;
      Some (VObj [("where", w); ("create", c); ("update", u)])
  end.

(** [const q = { ...input }; if (!q.where) q.where = {};
     if (q.where.deletedAt === undefined) q.where.deletedAt = null;] *)
Definition injectDeletedAtFilter (input : value) : option value :=
  let q := spread input in
  let w := if truthy (field q "where") then field q "where" else VObj [] in
  d <- getProp w "deletedAt" ;;
  w' <- (if isUndefined d then setProp w "deletedAt" VNull else Some w) ;;
  Some (VObj (setField q "where" w')).

(** [if (input?.k) args.k = input.k;] *)
Definition copyIfTruthy (input : value) (k : string)
  (args : list (string * value)) : list (string * value) :=
  if truthy (optProp input k) then setField args k (optProp input k) else args.

Definition copyIfSupported (supported : bool) (input : value) (k : string)
  (args : list (string * value)) : list (string * value) :=
  if supported then copyIfTruthy input k args else args.

(** First chunk of the group-by template: [by], [where], [orderBy],
    [having], [take] and [skip] are copied from the input when truthy. *)
Definition groupByCopied (input : value) : list (string * value) :=
  let a0 : list (string * value) := [] in
  let by_ := optProp input "by" in
  let a1 :=
    if truthy by_
    then setField a0 "by"
           (if truthy (optProp by_ "length") then by_ else VArr [VStr "id"])
    else a0 in
  let a2 := copyIfTruthy input "where" a1 in
  let a3 := copyIfTruthy input "orderBy" a2 in
  let a4 := copyIfTruthy input "having" a3 in
  let a5 :=
    if truthy (optProp input "take")
    then setField a4 "take" (mathMin500 (optProp input "take"))
    else a4 in
  copyIfTruthy input "skip" a5.

(** Second chunk: [if ((args.take || args.skip) && !args.orderBy)
    args.orderBy = [{ id: 'asc' }];] *)
Definition groupByOrdered (args : list (string * value)) : list (string * value) :=
  if (truthy (field args "take") || truthy (field args "skip"))
     && negb (truthy (field args "orderBy"))
  then setField args "orderBy" (VArr [VObj [("id", VStr "asc")]])
  else args.

Definition groupByPaging (input : value) : list (string * value) :=
  groupByOrdered (groupByCopied input).

(** The aggregation part, one line per supported aggregation. *)
Definition groupBySelections (aggregations : Aggregations) (input : value)
  (args : list (string * value)) : list (string * value) :=
  let a8 := copyIfSupported (supportsCount aggregations) input "_count" args in
  let a9 := copyIfSupported (supportsSum aggregations) input "_sum" a8 in
  let a10 := copyIfSupported (supportsAvg aggregations) input "_avg" a9 in
  let a11 := copyIfSupported (supportsMin aggregations) input "_min" a10 in
  copyIfSupported (supportsMax aggregations) input "_max" a11.

Definition groupByArgs (aggregations : Aggregations) (input : value) : value :=
  VObj (groupBySelections aggregations input (groupByPaging input)).

Definition aggregateSelectors : list string :=
  ["_count"; "_avg"; "_sum"; "_min"; "_max"].

Definition aggregateArgs (input : value) : value :=
  let aggArgs := if truthy input then spread input else [] in
  if forallb (fun k => negb (truthy (field aggArgs k))) aggregateSelectors
  then VObj (setField aggArgs "_count" (VObj [("_all", VBool true)]))
  else VObj aggArgs.

Definition markDeleted (env : Env) : value :=
  VObj [("deletedAt", VDate (nowDate env))].

(** The data-access call issued by a template; [None] is a TypeError raised
    while the arguments are built. *)
Definition buildCall (h : Handler) (env : Env) (input : value) : option Call :=
  let call m a := mkCall (h_modelVar h) m a in
  match h_call h with
  | SoftReadCall prismaMethod =>
      q <- injectDeletedAtFilter input ;;
      Some (call prismaMethod q)
  | SoftFindUniqueCall =>
      q <- injectDeletedAtFilter input ;;
      Some (call "findUnique" q)
  | SoftDeleteCall =>
      w <- getProp input "where" ;;
      Some (call "update" (VObj [("where", w); ("data", markDeleted env)]))
  | SoftDeleteManyCall =>
      w <- getProp input "where" ;;
      Some (call "updateMany" (VObj [("where", w); ("data", markDeleted env)]))
  | GroupByCall aggregations =>
      Some (call "groupBy" (groupByArgs aggregations input))
  | AggregateCall =>
      Some (call "aggregate" (aggregateArgs input))
  | DeleteCall =>
      w <- getProp input "where" ;;
      Some (call "delete" (VObj [("where", w)]))
  | DeleteManyCall =>
      w <- getProp input "where" ;;
      Some (call "deleteMany" (VObj [("where", w)]))
  | DirectCall prismaMethod inputParam =>
      a <- evalInputParam inputParam input ;;
      Some (call prismaMethod a)
  end.

Definition notFoundError (h : Handler) : Thrown :=
  ORPCError "NOT_FOUND" (h_modelName h ++ " not found").

(** [if (!result) throw ...; if (result && result.deletedAt) throw ...;] *)
Definition checkNotFound (h : Handler) (result : value) : option Thrown :=
  match h_notFound h with
  | NoNotFoundCheck => None
  | ThrowIfNull =>
      if negb (truthy result) then Some (notFoundError h) else None
  | ThrowIfNullOrDeleted =>
      if negb (truthy result) then Some (notFoundError h)
      else if truthy result && truthy (optProp result "deletedAt")
           then Some (notFoundError h)
           else None
  end.

(** [createSuccessResponse(data, meta)] of the base router
    (code-generator.ts, [generateUtilityFunctions]). *)
Definition createSuccessResponse (env : Env) (data meta : value) : value :=
  let nowMeta0 :=
    fold_left (fun acc kv => setField acc (fst kv) (snd kv)) (spread meta)
              [("timestamp", VStr (nowIso env))] in
  let nowMeta1 := copyIfTruthy meta "requestId" nowMeta0 in
  let nowMeta2 := copyIfTruthy meta "correlationId" nowMeta1 in
  VObj [("success", VBool true); ("data", data); ("meta", VObj nowMeta2)].

Definition shapeResult (h : Handler) (env : Env) (result : value) : value :=
  let meta := VObj [("operation", VStr (h_baseOpType h))] in
  match h_return h with
  | ReturnWrappedCount =>
      createSuccessResponse env (VObj [("count", result)]) meta
  | ReturnWrapped => createSuccessResponse env result meta
  | ReturnCount => VObj [("count", result)]
  | ReturnResult => result
  end.

Definition finish (h : Handler) (env : Env) (result : value) : Outcome :=
  match checkNotFound h result with
  | Some e => Throw e
  | None => Return (shapeResult h env result)
  end.

Definition runHandler (h : Handler) (env : Env) (input : value) : Outcome :=
  match buildCall h env input with
  | None => Throw TypeError
  | Some c =>
      match prisma env c with
      | Rejected e => Throw (DataLayerError e)
      | Resolved result => finish h env result
      end
  end.

End Runtime.

(* ================================================================== *)
(** ** src/generators/code-generator.ts *)
(* ================================================================== *)

Module CodeGenerator.

Import CodeGenerationUtils.

(** The parameters handed to [generateProcedureCode], with the handler it
    emits.  The validation-schema chain ([.input], [.output]) is left out. *)
Record Procedure := mkProcedure {
  p_name : string;
  p_operationName : string;
  p_inputType : option string;
  p_outputType : option string;
  p_procedureType : string;
  p_routeMethod : string;
  p_routePath : string;
  p_modelName : string;
  p_opType : string;
  p_baseOpType : string;
  p_handler : Handler
}.

(** [operationMap] of [getProcedureName]; [opToSegment] of
    [generateSingleProcedure] is the same table. *)
Definition operationMap : list (string * string) :=
  [ ("create", "create"); ("createMany", "createMany");
    ("findFirst", "findFirst"); ("findMany", "findMany");
    ("findUnique", "findById"); ("update", "update");
    ("updateMany", "updateMany"); ("upsert", "upsert");
    ("delete", "delete"); ("deleteMany", "deleteMany");
    ("count", "count"); ("aggregate", "aggregate");
    ("groupBy", "groupBy") ].

Definition opToSegment : list (string * string) := operationMap.

(** [operationMap[baseOpType] || baseOpType] *)
Definition operationOf (baseOpType : string) : string :=
  match Js.lookup operationMap baseOpType with
  | Some op => if Js.nonEmpty op then op else baseOpType
  | None => baseOpType
  end.

Definition getProcedureName (config : Config) (baseOpType modelName : string)
  : string :=
  let prefix := if showModelNameInProcedure config
                then Js.toLowerCase modelName else "" in
  let operation := operationOf baseOpType in
  if Js.nonEmpty prefix
  then prefix ++ Js.toUpperCase (Js.charAt0 operation) ++ Js.slice1 operation
  else operation.

Definition getProcedureType (_baseOpType : string) : string := "public".

Definition generateSingleProcedure (config : Config)
  (modelName operationName opType baseOpType : string) (model : PrismaModel)
  : Procedure :=
  let segment := match Js.lookup opToSegment baseOpType with
                 | Some sgm => sgm
                 | None => baseOpType
                 end in
  {| p_name := getProcedureName config baseOpType modelName;
     p_operationName := operationName;
     p_inputType := OperationUtils.getInputTypeByOpName baseOpType modelName;
     p_outputType := OperationUtils.getOutputTypeByOpName baseOpType modelName;
     p_procedureType := getProcedureType baseOpType;
     p_routeMethod := "POST";
     p_routePath := "/" ++ Js.toLowerCase modelName ++ "/" ++ segment;
     p_modelName := modelName;
     p_opType := opType;
     p_baseOpType := baseOpType;
     p_handler :=
       generateHandlerCode baseOpType modelName operationName config model |}.

Definition essentialOperations : list string :=
  ["create"; "findMany"; "findUnique"; "update"; "delete"; "count"].

(** Loop state of [generateModelProcedures]: the [procedures] array and the
    [generatedOperations] set. *)
Record GenState := mkGenState {
  procedures : list Procedure;
  generatedOperations : list string
}.

Definition emit (config : Config) (model : PrismaModel)
  (operationName opType baseOpType : string) (st : GenState) : GenState :=
  {| procedures :=
       procedures st ++
       [generateSingleProcedure config (m_name model) operationName opType
          baseOpType model];
     generatedOperations := generatedOperations st ++ [baseOpType] |}.

(** Body of the loop over [Object.entries(operations)]. *)
Definition stepEntry (config : Config) (model : PrismaModel)
  (st : GenState) (entry : string * string) : GenState :=
  let (opType, opName) := entry in
  if String.eqb opType "model" then st
  else
    let baseOpType := Js.replaceFirst "OrThrow" "" opType in
    if Js.includes (generatedOperations st) baseOpType then st
    else if OperationUtils.shouldGenerateOperation baseOpType config
    then emit config model opName opType baseOpType st
    else st.

(** Body of the loop over [essentialOperations]. *)
Definition stepEssential (config : Config) (model : PrismaModel)
  (st : GenState) (essentialOp : string) : GenState :=
  if negb (Js.includes (generatedOperations st) essentialOp)
     && OperationUtils.shouldGenerateOperation essentialOp config
  then emit config model essentialOp essentialOp essentialOp st
  else st.

Definition generateModelProcedures (config : Config) (model : PrismaModel)
  (modelOperations : list ModelMapping) : list Procedure :=
  match find (fun op => String.eqb (mm_model op) (m_name model)) modelOperations with
  | None => []
  | Some operations =>
      let st0 := mkGenState [] [] in
      let st1 := fold_left (stepEntry config model) (mm_entries operations) st0 in
      let st2 := fold_left (stepEssential config model) essentialOperations st1 in
      procedures st2
  end.

(** The keys of the emitted [<router>Procedures] object. *)
Definition procedureNames (config : Config) (model : PrismaModel)
  (modelOperations : list ModelMapping) : list string :=
  map p_name (generateModelProcedures config model modelOperations).

Definition generatedOps (config : Config) (model : PrismaModel)
  (modelOperations : list ModelMapping) : list string :=
  map p_baseOpType (generateModelProcedures config model modelOperations).

End CodeGenerator.

(* ================================================================== *)
(** ** src/generators/shield-generator.ts *)
(* ================================================================== *)

(** The right-hand sides a generated rule constant can have. *)
Inductive RuleExpr : Type :=
| IsAuthenticated
| IsAdmin
| Deny
| Allow
| OwnerRule.

(** [const <name> = <value>;] *)
Record RuleDecl := mkRuleDecl {
  r_name : string;
  r_value : RuleExpr
}.

(** One model entry of the [shield<Context>({...})] argument: the model key
    and, per operation key, the name of the rule constant. *)
Record ModelShield := mkModelShield {
  s_modelKey : string;
  s_operations : list (string * string)
}.

Definition resolveRule (decls : list RuleDecl) (ruleName : string)
  : option RuleExpr :=
  option_map r_value
    (find (fun d => String.eqb (r_name d) ruleName) decls).

Module ShieldGenerator.

Definition generateRulesForModel (config : Config) (model : PrismaModel)
  : list RuleDecl :=
  let readRule :=
    if String.eqb (defaultReadRule config) "auth" then IsAuthenticated
    else if String.eqb (defaultReadRule config) "deny" then Deny
    else if String.eqb (defaultReadRule config) "allow" then Allow
    else Deny in
  let writeRule :=
    if String.eqb (defaultWriteRule config) "auth" then IsAuthenticated
    else if String.eqb (defaultWriteRule config) "deny" then Deny
    else if String.eqb (defaultWriteRule config) "allow" then Allow
    else Deny in
  [ mkRuleDecl ("canRead" ++ m_name model) readRule;
    mkRuleDecl ("canWrite" ++ m_name model) writeRule ].

Definition toLowerCamelCase (name : string) : string :=
  if Js.nonEmpty name
  then Js.toLowerCase (Js.charAt0 name) ++ Js.slice1 name
  else name.

Definition operationMappings : list (string * string) :=
  [ ("findMany", "list"); ("findUnique", "findById");
    ("findFirst", "findFirst"); ("create", "create");
    ("createMany", "createMany"); ("update", "update");
    ("updateMany", "updateMany"); ("upsert", "upsert");
    ("delete", "delete"); ("deleteMany", "deleteMany");
    ("count", "count"); ("aggregate", "aggregate");
    ("groupBy", "groupBy") ].

Definition isWriteOperation (operation : string) : bool :=
  Js.includes
    ["create"; "createMany"; "update"; "updateMany"; "upsert"; "delete";
     "deleteMany"] operation.

Definition generateModelShieldConfig (model : PrismaModel) : ModelShield :=
  {| s_modelKey := toLowerCamelCase (m_name model);
     s_operations :=
       map (fun m : string * string =>
              let (prismaOp, shieldOp) := m in
              if isWriteOperation prismaOp
              then (shieldOp, "canWrite" ++ m_name model)
              else (shieldOp, "canRead" ++ m_name model))
           operationMappings |}.

(** The keys of one model's rule table. *)
Definition ruleKeys (model : PrismaModel) : list string :=
  map fst (s_operations (generateModelShieldConfig model)).

(** The rule an operation key of the model's table evaluates to. *)
Definition ruleFor (config : Config) (model : PrismaModel) (shieldOp : string)
  : option RuleExpr :=
  match Js.lookup (s_operations (generateModelShieldConfig model)) shieldOp with
  | Some ruleName => resolveRule (generateRulesForModel config model) ruleName
  | None => None
  end.

End ShieldGenerator.

(** The earlier revision of the same class kept in the repository
    (unnamed/part_009). *)
Module ShieldGeneratorLegacy.

Definition generateRulesForModel (config : Config) (model : PrismaModel)
  : list RuleDecl :=
  let readRule :=
    if String.eqb (defaultReadRule config) "auth" then IsAuthenticated
    else if String.eqb (defaultReadRule config) "deny" then Deny
    else Allow in
  let writeRule :=
    if String.eqb (defaultWriteRule config) "auth" then IsAuthenticated
    else if String.eqb (defaultWriteRule config) "admin" then IsAdmin
    else Deny in
  [ mkRuleDecl ("canRead" ++ m_name model) readRule;
    mkRuleDecl ("canWrite" ++ m_name model) writeRule;
    mkRuleDecl ("canModifyOwn" ++ m_name model) OwnerRule ].

End ShieldGeneratorLegacy.

(* ================================================================== *)
(** ** The emitted errorHandling.ts: [prismaErrorMapper] *)
(* ================================================================== *)

Module ErrorHandling.

(** What the mapper throws: the error it was given, or a fresh [ORPCError]. *)
Inductive MapperThrow : Type :=
| Rethrow (original : value)
| ThrowORPC (code : string).

Definition isORPCError (err : value) : bool :=
  hasProp err "code"
  && typeofString (optProp err "code")
  && hasProp err "status"
  && typeofNumber (optProp err "status").

Definition isPrismaKnownError (err : value) : bool :=
  isObject err
  && hasProp err "code"
  && typeofString (optProp err "code")
  && hasProp err "name"
  && strictEqStr (optProp err "name") "PrismaClientKnownRequestError".

Definition isPrismaValidationError (err : value) : bool :=
  isObject err
  && hasProp err "name"
  && strictEqStr (optProp err "name") "PrismaClientValidationError".

(** The [switch (error.code)]; [None] when no case matches. *)
Definition knownCode (code : value) : option string :=
  if strictEqStr code "P2002" || strictEqStr code "P2003" then Some "CONFLICT"
  else if strictEqStr code "P2025" || strictEqStr code "P2016"
          || strictEqStr code "P2021" then Some "NOT_FOUND"
  else if strictEqStr code "P2022" || strictEqStr code "P2000"
  then Some "BAD_REQUEST"
  else None.

Definition prismaErrorMapper (error : value) : MapperThrow :=
  if isORPCError error then Rethrow error
  else
    match (if isPrismaKnownError error
           then knownCode (optProp error "code") else None) with
    | Some code => ThrowORPC code
    | None =>
        if isPrismaValidationError error then ThrowORPC "BAD_REQUEST"
        else ThrowORPC "INTERNAL_SERVER_ERROR"
    end.

Definition taxonomy : list string :=
  ["CONFLICT"; "NOT_FOUND"; "BAD_REQUEST"; "INTERNAL_SERVER_ERROR"].

End ErrorHandling.

(* ================================================================== *)
(** ** Sample schemas, configurations and requests *)
(* ================================================================== *)

Module Fixtures.

Import Runtime.

Definition allActions : list string :=
  [ "create"; "createMany"; "findFirst"; "findMany"; "findUnique"; "update";
    "updateMany"; "upsert"; "delete"; "deleteMany"; "count"; "aggregate";
    "groupBy" ].

(** The README defaults: prefixed procedure names, every action. *)
Definition cfgPrefixed : Config :=
  mkConfig true allActions false false "allow" "auth".

Definition cfgBare : Config :=
  mkConfig false allActions false false "allow" "auth".

(** An allow-list that names a single action. *)
Definition cfgOnlyFindMany : Config :=
  mkConfig true ["findMany"] false false "allow" "auth".

(** Rule values outside the schema's enumeration. *)
Definition cfgBadRules : Config :=
  mkConfig true allActions false false "authenticated" "admin".

Definition cfgSoftDeletes : Config :=
  mkConfig true allActions true false "allow" "auth".

Definition cfgWrapped : Config :=
  mkConfig true allActions false true "allow" "auth".

(** [model User { id String @id; email String @unique; name String }] *)
Definition User : PrismaModel :=
  mkModel "User"
    [ mkField "id" "String" true false "scalar";
      mkField "email" "String" false false "scalar";
      mkField "name" "String" false false "scalar" ].

(** [model Post { id String @id; title String; deletedAt DateTime? }] *)
Definition Post : PrismaModel :=
  mkModel "Post"
    [ mkField "id" "String" true false "scalar";
      mkField "title" "String" false false "scalar";
      mkField "deletedAt" "DateTime" false false "scalar" ].

(** The model of tests/integration/procedure-naming.test.ts. *)
Definition AccommodationPricing : PrismaModel :=
  mkModel "AccommodationPricing"
    [ mkField "id" "String" true false "scalar";
      mkField "price" "Float" false false "scalar" ].

Definition mappingFor (modelName : string) : ModelMapping :=
  mkMapping modelName
    [ ("findUnique", "findUnique" ++ modelName);
      ("findUniqueOrThrow", "findUnique" ++ modelName ++ "OrThrow");
      ("findFirst", "findFirst" ++ modelName);
      ("findFirstOrThrow", "findFirst" ++ modelName ++ "OrThrow");
      ("findMany", "findMany" ++ modelName);
      ("create", "createOne" ++ modelName);
      ("createMany", "createMany" ++ modelName);
      ("delete", "deleteOne" ++ modelName);
      ("update", "updateOne" ++ modelName);
      ("deleteMany", "deleteMany" ++ modelName);
      ("updateMany", "updateMany" ++ modelName);
      ("upsert", "upsertOne" ++ modelName);
      ("aggregate", "aggregate" ++ modelName);
      ("groupBy", "groupBy" ++ modelName);
      ("count", "count" ++ modelName) ].

Definition modelOperations : list ModelMapping :=
  [ mappingFor "User"; mappingFor "Post"; mappingFor "AccommodationPricing" ].

(** A data layer that answers every call with the same value. *)
Definition envReturning (result : value) : Env :=
  mkEnv (fun _ => Resolved result) 1700000000000 "2023-11-14T22:13:20.000Z".

Definition whereId : value := VObj [("id", VStr "p1")].

(** A soft-deleted row of [Post]. *)
Definition deletedPost : value :=
  VObj [ ("id", VStr "p1"); ("title", VStr "Hello");
         ("deletedAt", VDate 1690000000000) ].

(** A find-unique request that names the marker itself:
    [{ where: { id: "p1", deletedAt: { not: null } } }]. *)
Definition findDeletedInput : value :=
  VObj [("where", VObj [ ("id", VStr "p1");
                         ("deletedAt", VObj [("not", VNull)]) ])].

(** [{ by: [], take: 10 }] *)
Definition groupByEmptyTake10 : value :=
  VObj [("by", VArr []); ("take", VNum 10)].

(** [{ by: ["name"], take: 0 }] *)
Definition groupByTake0 : value :=
  VObj [("by", VArr [VStr "name"]); ("take", VNum 0)].

(** [{ by: ["name"], take: 1000 }] *)
Definition groupByTake1000 : value :=
  VObj [("by", VArr [VStr "name"]); ("take", VNum 1000)].

(** [{ _sum: { id: true } }] *)
Definition aggregateSumInput : value :=
  VObj [("_sum", VObj [("id", VBool true)])].

(** An error that already has the ORPC shape:
    [{ code: "FORBIDDEN", status: 403 }]. *)
Definition forbiddenError : value :=
  VObj [("code", VStr "FORBIDDEN"); ("status", VNum 403)].

(** [PrismaClientKnownRequestError] with code P2002. *)
Definition uniqueViolation : value :=
  VObj [ ("name", VStr "PrismaClientKnownRequestError");
         ("code", VStr "P2002") ].

End Fixtures.

(* ================================================================== *)
(** ** Where the value model is the JavaScript semantics *)
(* ================================================================== *)

Module JsDomain.

(** The property names every object literal inherits from
    [Object.prototype].  For such a name [tbl[k]] is the inherited function
    (for [__proto__], the prototype itself) and not [undefined]; [Js.lookup]
    is the table lookup of the source for every other name. *)
Definition objectPrototypeNames : list string :=
  [ "constructor"; "hasOwnProperty"; "isPrototypeOf"; "propertyIsEnumerable";
    "toLocaleString"; "toString"; "valueOf"; "__proto__";
    "__defineGetter__"; "__defineSetter__";
    "__lookupGetter__"; "__lookupSetter__" ].

Definition inheritedName (k : string) : bool :=
  Js.includes objectPrototypeNames k.

(** The values on which [setProp] is the assignment [o.k = v] of the source:
    plain objects, which take the property, and primitives, on which
    strict-mode code raises a TypeError.  Arrays and dates take the property
    too, which [setProp] does not model. *)
Definition plainOrPrimitive (v : value) : bool :=
  match v with
  | VArr _ | VDate _ => false
  | _ => true
  end.

End JsDomain.

(* ================================================================== *)
(** ** src/utils/operation-utils.ts: REST metadata *)
(* ================================================================== *)

Module RestMetadata.

(** [methodMap[opType] || 'POST'] *)
Definition getHttpMethod (opType : string) : string :=
  match
    Js.lookup
      [ ("create", "POST"); ("createMany", "POST");
        ("findFirst", "GET"); ("findMany", "GET"); ("findUnique", "GET");
        ("update", "PUT"); ("updateMany", "PUT"); ("upsert", "PUT");
        ("delete", "DELETE"); ("deleteMany", "DELETE");
        ("count", "GET"); ("aggregate", "GET"); ("groupBy", "GET") ] opType
  with
  | Some m => if Js.nonEmpty m then m else "POST"
  | None => "POST"
  end.

(** [pathMap[opType] || `/${pluralPath}/${opType}`] *)
Definition getRestPath (opType modelName : string) : string :=
  let modelPath := Js.toLowerCase modelName in
  let pluralPath := modelPath ++ "s" in
  match
    Js.lookup
      [ ("create", "/" ++ pluralPath);
        ("createMany", "/" ++ pluralPath);
        ("findFirst", "/" ++ pluralPath ++ "/first");
        ("findMany", "/" ++ pluralPath);
        ("findUnique", "/" ++ pluralPath ++ "/{id}");
        ("update", "/" ++ pluralPath ++ "/{id}");
        ("updateMany", "/" ++ pluralPath);
        ("upsert", "/" ++ pluralPath ++ "/upsert");
        ("delete", "/" ++ pluralPath ++ "/{id}");
        ("deleteMany", "/" ++ pluralPath);
        ("count", "/" ++ pluralPath ++ "/count");
        ("aggregate", "/" ++ pluralPath ++ "/aggregate");
        ("groupBy", "/" ++ pluralPath ++ "/group") ] opType
  with
  | Some p => if Js.nonEmpty p then p else "/" ++ pluralPath ++ "/" ++ opType
  | None => "/" ++ pluralPath ++ "/" ++ opType
  end.

Definition supportsCaching (opType : string) : bool :=
  Js.includes
    ["findFirst"; "findMany"; "findUnique"; "count"; "aggregate"; "groupBy"]
    opType.

End RestMetadata.

(* ================================================================== *)
(** ** src/utils/model-utils.ts: field queries *)
(* ================================================================== *)

Module ModelQueries.

Definition searchableTypes : list string :=
  ["String"; "Int"; "BigInt"; "Float"; "Decimal"].

Definition sortableTypes : list string :=
  ["String"; "Int"; "BigInt"; "Float"; "Decimal"; "DateTime"; "Boolean"].

Definition getSearchableFields (model : PrismaModel) : list string :=
  map f_name
    (filter (fun f => Js.includes searchableTypes (f_type f)
                      && negb (f_isList f)
                      && negb (String.eqb (f_name f) "id"))
            (m_fields model)).

Definition getSortableFields (model : PrismaModel) : list string :=
  map f_name
    (filter (fun f => Js.includes sortableTypes (f_type f) && negb (f_isList f))
            (m_fields model)).

End ModelQueries.

(* ================================================================== *)
(** ** code-generator.ts: [generateAppRouter];
       shield-generator.ts: [generateModelRules], [generateShieldConfig] *)
(* ================================================================== *)

Module AppRouter.

(** The entries of the emitted [appRouter] object: the key and the imported
    router identifier.  [pluralize] is the npm package of that name. *)
Definition generateAppRouter (pluralize : string -> string)
  (models : list PrismaModel) : list (string * string) :=
  map (fun model =>
         (Js.toLowerCase (m_name model),
          pluralize (Js.toLowerCase (m_name model)) ++ "Router"))
      models.

End AppRouter.

Module ShieldFile.

(** The rule constants of all models, in emission order. *)
Definition generateModelRules (config : Config) (models : list PrismaModel)
  : list RuleDecl :=
  flat_map (ShieldGenerator.generateRulesForModel config) models.

(** The argument of [shield<Context>({...})]. *)
Definition generateShieldConfig (models : list PrismaModel) : list ModelShield :=
  map ShieldGenerator.generateModelShieldConfig models.

End ShieldFile.

(* ================================================================== *)
(** ** code-generation-utils.ts: [generateProcedureCode],
       [generateSchemaImports] *)
(* ================================================================== *)

Module Validation.

Import CodeGenerationUtils CodeGenerator.

(** The validation options of [Config]. *)
Record ValidationOptions := mkValidation {
  generateInputValidation : bool;
  generateOutputValidation : bool;
  schemaLibrary : string
}.

(** The [switch (baseOpType)] that picks the CRUD schema. *)
Definition operationSchema (baseOpType modelName : string) : option string :=
  Js.lookup
    [ ("findMany", modelName ++ "FindManySchema");
      ("findFirst", modelName ++ "FindFirstSchema");
      ("findUnique", modelName ++ "FindUniqueSchema");
      ("create", modelName ++ "CreateOneSchema");
      ("createMany", modelName ++ "CreateManySchema");
      ("update", modelName ++ "UpdateOneSchema");
      ("updateMany", modelName ++ "UpdateManySchema");
      ("delete", modelName ++ "DeleteOneSchema");
      ("deleteMany", modelName ++ "DeleteManySchema");
      ("count", modelName ++ "CountSchema");
      ("groupBy", modelName ++ "GroupBySchema");
      ("aggregate", modelName ++ "AggregateSchema") ] baseOpType.

Definition countSchemaExpr : string :=
  "z.object({ count: z.number().int().nonnegative() })".

Definition outputSchemaExpr (v : ValidationOptions) (baseOpType : string)
  (outputType : option string) : option string :=
  if generateOutputValidation v
  then
    if String.eqb (schemaLibrary v) "zod"
    then
      if String.eqb baseOpType "groupBy" then Some "z.unknown()"
      else if String.eqb baseOpType "aggregate" then Some "z.unknown()"
      else if Js.includes ["createMany"; "updateMany"; "deleteMany"; "count"]
                baseOpType
      then Some countSchemaExpr
      else if String.eqb baseOpType "findMany" then Some "z.array(z.unknown())"
      else Some "z.unknown()"
    else
      match outputType with
      | Some t => if Js.nonEmpty t then Some (t ++ "Schema") else None
      | None => None
      end
  else None.

(** The named imports [generateSchemaImports] adds from the generated zod
    module. *)
Definition schemaImports (v : ValidationOptions) (modelName : string)
  : list string :=
  if negb (generateInputValidation v) && negb (generateOutputValidation v)
  then []
  else if generateInputValidation v
  then [ modelName ++ "FindManySchema"; modelName ++ "FindFirstSchema";
         modelName ++ "FindUniqueSchema"; modelName ++ "CreateOneSchema";
         modelName ++ "CreateManySchema"; modelName ++ "UpdateOneSchema";
         modelName ++ "UpdateManySchema"; modelName ++ "DeleteOneSchema";
         modelName ++ "DeleteManySchema"; modelName ++ "GroupBySchema";
         modelName ++ "AggregateSchema"; modelName ++ "CountSchema" ]
  else [].

(** The parts of the emitted procedure chain. *)
Inductive ChainPart : Type :=
| ProcedurePart (procedure : string)
| RoutePart (method path : string)
| InputPart (schema : string)
| OutputPart (schemaExpr : string) (wrapped : bool)
| HandlerPart (handler : Handler).

(** [chainParts] of [generateProcedureCode].  [params] is the record
    [generateSingleProcedure] passes, which always carries a route, and
    whose handler is the one [generateHandlerCode] emits. *)
Definition generateProcedureCode (v : ValidationOptions) (config : Config)
  (params : Procedure) : list ChainPart :=
  let procedure :=
    if String.eqb (p_procedureType params) "public"
    then "publicProcedure" else "protectedProcedure" in
  let inputParts :=
    match operationSchema (p_baseOpType params) (p_modelName params) with
    | Some schema =>
        if generateInputValidation v && Js.nonEmpty schema
        then [InputPart schema] else []
    | None => []
    end in
  let outputParts :=
    match outputSchemaExpr v (p_baseOpType params) (p_outputType params) with
    | Some expr =>
        if generateOutputValidation v && Js.nonEmpty expr
        then [OutputPart expr (wrapResponses config)] else []
    | None => []
    end in
  ([ProcedurePart procedure;
    RoutePart (p_routeMethod params) (p_routePath params)]
   ++ inputParts ++ outputParts ++ [HandlerPart (p_handler params)])%list.

End Validation.

(* ================================================================== *)
(** ** src/utils/logger.ts and [createSpinner] of orpc-generator.ts *)
(* ================================================================== *)

Module Logging.

(** [s.includes(pat)] on strings *)
Fixpoint includesSubstring (pat s : string) : bool :=
  if String.prefix pat s then true
  else match s with
       | EmptyString => false
       | String _ r => includesSubstring pat r
       end.

(** [process.env.A || process.env.B || ''] *)
Definition envOr (a b : option string) : string :=
  match a with
  | Some s => if Js.nonEmpty s then s
              else match b with
                   | Some t => t
                   | None => ""
                   end
  | None => match b with
            | Some t => t
            | None => ""
            end
  end.

(** The environment variables both functions read. *)
Record LogEnv := mkLogEnv {
  ORPC_LOG_LEVEL : option string;
  ORPC_LOG : option string;
  ORPC_DEBUG : option string;
  DEBUG : option string;
  ORPC_SPINNER : option string
}.

Definition rawLevel (e : LogEnv) : string :=
  Js.toLowerCase (envOr (ORPC_LOG_LEVEL e) (ORPC_LOG e)).

Definition dbg (e : LogEnv) : string :=
  Js.toLowerCase (envOr (ORPC_DEBUG e) (DEBUG e)).

Definition spinnerEnv (e : LogEnv) : string :=
  Js.toLowerCase (envOr (ORPC_SPINNER e) None).

(** [LogLevel]: ERROR = 0, WARN = 1, INFO = 2, DEBUG = 3; [ERROR - 1] is
    the silent level. *)
Definition ERROR : Z := 0.
Definition WARN : Z := 1.
Definition INFO : Z := 2.
Definition DEBUG_LEVEL : Z := 3.

Definition levelOfRaw (raw : string) : option Z :=
  if String.eqb raw "silent" || String.eqb raw "none" then Some (ERROR - 1)%Z
  else if String.eqb raw "error" then Some ERROR
  else if String.eqb raw "warn" || String.eqb raw "warning" then Some WARN
  else if String.eqb raw "info" then Some INFO
  else if String.eqb raw "debug" then Some DEBUG_LEVEL
  else if String.eqb raw "1" || String.eqb raw "true" then Some INFO
  else None.

Definition resolveLevel (e : LogEnv) (enableDebugLogging : bool) : Z :=
  match (if Js.nonEmpty (rawLevel e) then levelOfRaw (rawLevel e) else None) with
  | Some l => l
  | None =>
      if includesSubstring "orpc" (dbg e) then DEBUG_LEVEL
      else if enableDebugLogging then DEBUG_LEVEL
      else ERROR
  end.

(** [this.level >= threshold]: whether a method of that threshold prints. *)
Definition prints (level threshold : Z) : bool := (threshold <=? level)%Z.

Definition explicitlyDisable (e : LogEnv) : bool :=
  String.eqb (spinnerEnv e) "false"
  || String.eqb (rawLevel e) "silent"
  || String.eqb (rawLevel e) "none"
  || String.eqb (rawLevel e) "0"
  || String.eqb (rawLevel e) "off".

Definition explicitlyEnable (e : LogEnv) : bool :=
  String.eqb (spinnerEnv e) "true"
  || includesSubstring "orpc" (dbg e)
  || String.eqb (rawLevel e) "info"
  || String.eqb (rawLevel e) "debug"
  || String.eqb (rawLevel e) "warn"
  || String.eqb (rawLevel e) "1"
  || String.eqb (rawLevel e) "true".

(** [canLog] of [createSpinner(enabled)] *)
Definition canLog (e : LogEnv) (enabled : bool) : bool :=
  if explicitlyDisable e then false else enabled || explicitlyEnable e.

End Logging.

(* ================================================================== *)
(** * Properties *)
(* ================================================================== *)

Import ModelUtils CodeGenerationUtils Runtime CodeGenerator Fixtures.

(** ** Helper lemmas on the primitives *)

Lemma includes_In (arr : list string) (x : string) :
  Js.includes arr x = true <-> In x arr.
Proof.
  unfold Js.includes. rewrite existsb_exists. split.
  - intros [y [Hy Heq]]. apply String.eqb_eq in Heq. now subst.
  - intros H. exists x. split; [assumption | apply String.eqb_refl].
Qed.


Lemma includes_false_not_In (arr : list string) (x : string) :
  Js.includes arr x = false <-> ~ In x arr.
Proof.
  rewrite <- includes_In. destruct (Js.includes arr x); split; intros H;
    try reflexivity; try discriminate; try (intros K; discriminate K).
  exfalso. now apply H.
Qed.

Lemma lookup_setField_same (ps : list (string * value)) (k : string) (v : value) :
  Js.lookup (setField ps k v) k = Some v.
Proof.
  induction ps as [| [k' v'] r IH]; simpl.
  - now rewrite String.eqb_refl.
  - destruct (String.eqb k k') eqn:E; simpl.
    + now rewrite String.eqb_refl.
    + now rewrite E.
Qed.

Lemma lookup_setField_other (ps : list (string * value)) (k k' : string) (v : value) :
  String.eqb k' k = false ->
  Js.lookup (setField ps k v) k' = Js.lookup ps k'.
Proof.
  intros Hne. induction ps as [| [k0 v0] r IH]; simpl.
  - now rewrite Hne.
  - destruct (String.eqb k k0) eqn:E; simpl.
    + apply String.eqb_eq in E. subst k0. now rewrite Hne.
    + destruct (String.eqb k' k0); [reflexivity | exact IH].
Qed.

Lemma field_setField_same (ps : list (string * value)) (k : string) (v : value) :
  field (setField ps k v) k = v.
Proof. unfold field. now rewrite lookup_setField_same. Qed.

Lemma field_setField_other (ps : list (string * value)) (k k' : string) (v : value) :
  String.eqb k' k = false ->
  field (setField ps k v) k' = field ps k'.
Proof. intros H. unfold field. now rewrite lookup_setField_other. Qed.

(** Writing back the value a key already holds changes nothing. *)
Lemma setField_lookup_id (ps : list (string * value)) (k : string) (v : value) :
  Js.lookup ps k = Some v -> setField ps k v = ps.
Proof.
  induction ps as [| [k' v'] r IH]; simpl; [discriminate |].
  destruct (String.eqb k k') eqn:E.
  - intros H. injection H as ->. apply String.eqb_eq in E. now subst.
  - intros H. now rewrite IH.
Qed.

Lemma field_copyIfTruthy_other (input : value) (k k' : string)
  (args : list (string * value)) :
  String.eqb k' k = false ->
  field (copyIfTruthy input k args) k' = field args k'.
Proof.
  intros H. unfold copyIfTruthy.
  destruct (truthy (optProp input k)); [now apply field_setField_other | reflexivity].
Qed.

Lemma field_copyIfSupported_other (b : bool) (input : value) (k k' : string)
  (args : list (string * value)) :
  String.eqb k' k = false ->
  field (copyIfSupported b input k args) k' = field args k'.
Proof.
  intros H. unfold copyIfSupported.
  destruct b; [now apply field_copyIfTruthy_other | reflexivity].
Qed.

(** ** Procedure names (code-generator.ts, [getProcedureName]) *)

Lemma nonEmpty_toLowerCase (s : string) :
  Js.nonEmpty (Js.toLowerCase s) = Js.nonEmpty s.
Proof. destruct s; reflexivity. Qed.

(** With prefixing on, the prefix is the whole model name in lower case. *)
Lemma getProcedureName_prefixed (config : Config) (baseOpType modelName : string) :
  showModelNameInProcedure config = true ->
  Js.nonEmpty modelName = true ->
  getProcedureName config baseOpType modelName =
    Js.toLowerCase modelName
    ++ Js.toUpperCase (Js.charAt0 (operationOf baseOpType))
    ++ Js.slice1 (operationOf baseOpType).
Proof.
  intros Hshow Hne. unfold getProcedureName. rewrite Hshow.
  now rewrite nonEmpty_toLowerCase, Hne.
Qed.

Lemma getProcedureName_bare (config : Config) (baseOpType modelName : string) :
  showModelNameInProcedure config = false ->
  getProcedureName config baseOpType modelName = operationOf baseOpType.
Proof. intros H. unfold getProcedureName. now rewrite H. Qed.

(** C1.  With entity-name prefixing on, [getProcedureName] lower-cases the
    whole model name instead of its first letter only: for
    "AccommodationPricing" and the create operation it yields
    "accommodationpricingCreate", not the "accommodationPricingCreate" that
    lowerFirst(N) + Op (and tests/integration/procedure-naming.test.ts)
    requires, and that the shield generator's own [toLowerCamelCase]
    produces for the same model name. *)
Theorem C1_getProcedureName_lowercases_whole_name :
  getProcedureName cfgPrefixed "create" "AccommodationPricing"
    = "accommodationpricingCreate"
  /\ getProcedureName cfgPrefixed "create" "AccommodationPricing"
    <> "accommodationPricingCreate"
  /\ ShieldGenerator.toLowerCamelCase "AccommodationPricing" ++ "Create"
    = "accommodationPricingCreate".
Proof.
  split; [reflexivity | split; [| reflexivity]].
  vm_compute. discriminate.
Qed.

(** ** Generated operations (code-generator.ts, [generateModelProcedures]) *)

Section GenerateModelProcedures.

Variables (config : Config) (model : PrismaModel).

Lemma emit_generatedOperations (opName opType baseOpType : string) (st : GenState) :
  generatedOperations (emit config model opName opType baseOpType st)
  = (generatedOperations st ++ [baseOpType])%list.
Proof. reflexivity. Qed.

(** [generatedOperations] records exactly the base operation of every
    pushed procedure, and only allow-listed operations are pushed. *)
Lemma stepEntry_invariant (st : GenState) (entry : string * string) :
  map p_baseOpType (procedures st) = generatedOperations st ->
  (forall x, In x (generatedOperations st) -> In x (generateModelActions config)) ->
  map p_baseOpType (procedures (stepEntry config model st entry))
    = generatedOperations (stepEntry config model st entry)
  /\ (forall x, In x (generatedOperations (stepEntry config model st entry)) ->
                In x (generateModelActions config)).
Proof.
  intros Hmap Hallow. destruct entry as [opType opName]. unfold stepEntry.
  destruct (String.eqb opType "model"); [now split |].
  destruct (Js.includes (generatedOperations st) _); [now split |].
  destruct (OperationUtils.shouldGenerateOperation _ config) eqn:Hgen; [| now split].
  split.
  - simpl. rewrite map_app, Hmap. reflexivity.
  - simpl. intros x Hx. apply in_app_or in Hx. destruct Hx as [Hx | [<- | []]].
    + now apply Hallow.
    + now apply includes_In.
Qed.

Lemma stepEssential_invariant (st : GenState) (essentialOp : string) :
  map p_baseOpType (procedures st) = generatedOperations st ->
  (forall x, In x (generatedOperations st) -> In x (generateModelActions config)) ->
  map p_baseOpType (procedures (stepEssential config model st essentialOp))
    = generatedOperations (stepEssential config model st essentialOp)
  /\ (forall x, In x (generatedOperations (stepEssential config model st essentialOp)) ->
                In x (generateModelActions config)).
Proof.
  intros Hmap Hallow. unfold stepEssential.
  destruct (negb _ && _) eqn:Hc; [| now split].
  apply andb_true_iff in Hc. destruct Hc as [_ Hgen].
  split.
  - simpl. rewrite map_app, Hmap. reflexivity.
  - simpl. intros x Hx. apply in_app_or in Hx. destruct Hx as [Hx | [<- | []]].
    + now apply Hallow.
    + now apply includes_In.
Qed.

Lemma fold_stepEntry_invariant (entries : list (string * string)) :
  forall st,
  map p_baseOpType (procedures st) = generatedOperations st ->
  (forall x, In x (generatedOperations st) -> In x (generateModelActions config)) ->
  map p_baseOpType (procedures (fold_left (stepEntry config model) entries st))
    = generatedOperations (fold_left (stepEntry config model) entries st)
  /\ (forall x,
        In x (generatedOperations (fold_left (stepEntry config model) entries st)) ->
        In x (generateModelActions config)).
Proof.
  induction entries as [| e r IH]; intros st Hmap Hallow; simpl.
  - now split.
  - destruct (stepEntry_invariant st e Hmap Hallow) as [H1 H2]. now apply IH.
Qed.

Lemma fold_stepEssential_invariant (ops : list string) :
  forall st,
  map p_baseOpType (procedures st) = generatedOperations st ->
  (forall x, In x (generatedOperations st) -> In x (generateModelActions config)) ->
  map p_baseOpType (procedures (fold_left (stepEssential config model) ops st))
    = generatedOperations (fold_left (stepEssential config model) ops st)
  /\ (forall x,
        In x (generatedOperations (fold_left (stepEssential config model) ops st)) ->
        In x (generateModelActions config)).
Proof.
  induction ops as [| e r IH]; intros st Hmap Hallow; simpl.
  - now split.
  - destruct (stepEssential_invariant st e Hmap Hallow) as [H1 H2]. now apply IH.
Qed.

(** The second loop never removes an operation ... *)
Lemma fold_stepEssential_monotone (ops : list string) :
  forall st x,
  In x (generatedOperations st) ->
  In x (generatedOperations (fold_left (stepEssential config model) ops st)).
Proof.
  induction ops as [| e r IH]; intros st x Hx; simpl; [assumption |].
  apply IH. unfold stepEssential.
  destruct (negb _ && _); [| assumption].
  simpl. apply in_or_app. now left.
Qed.

(** ... and adds every allow-listed operation it visits. *)
Lemma fold_stepEssential_covers (ops : list string) :
  forall st e,
  In e ops ->
  In e (generateModelActions config) ->
  In e (generatedOperations (fold_left (stepEssential config model) ops st)).
Proof.
  induction ops as [| o r IH]; intros st e Hin Hallow; simpl; [contradiction |].
  destruct Hin as [-> | Hin]; [| now apply IH].
  apply fold_stepEssential_monotone. unfold stepEssential.
  destruct (Js.includes (generatedOperations st) e) eqn:Hinc; simpl.
  - now apply includes_In.
  - unfold OperationUtils.shouldGenerateOperation.
    apply includes_In in Hallow. rewrite Hallow. simpl.
    apply in_or_app. right. now left.
Qed.

End GenerateModelProcedures.

(** C4 (as stated, refuted).  With the allow-list [["findMany"]] the
    essential operation "create" is not generated for [User], although the
    schema's operation mapping offers it. *)
Lemma C4_counterexample :
  In "create" essentialOperations
  /\ ~ In "create" (generatedOps cfgOnlyFindMany User modelOperations).
Proof.
  split; [simpl; auto |].
  vm_compute. intros [H | []]. discriminate H.
Qed.

(** C4 (amended).  For an entity that has an operation mapping, an essential
    operation kind (create, findMany, findUnique, update, delete, count) is
    generated exactly when the configured allow-list contains it: the second
    loop adds essential kinds the schema mapping lacks, behind the same
    [shouldGenerateOperation] test as every other kind. *)
Theorem C4_essential_generated_iff_allowed :
  forall (config : Config) (model : PrismaModel) (mappings : list ModelMapping)
         (operations : ModelMapping) (essentialOp : string),
  find (fun op => String.eqb (mm_model op) (m_name model)) mappings
    = Some operations ->
  In essentialOp essentialOperations ->
  (In essentialOp (generatedOps config model mappings)
   <-> In essentialOp (generateModelActions config)).
Proof.
  intros config model mappings operations essentialOp Hfind Hess.
  unfold generatedOps, generateModelProcedures. rewrite Hfind. cbv zeta.
  assert (H0 : map p_baseOpType (procedures (mkGenState [] []))
               = generatedOperations (mkGenState [] [])) by reflexivity.
  assert (A0 : forall x, In x (generatedOperations (mkGenState [] [])) ->
                         In x (generateModelActions config))
    by (intros x []).
  destruct (fold_stepEntry_invariant config model (mm_entries operations)
              _ H0 A0) as [H1 A1].
  destruct (fold_stepEssential_invariant config model essentialOperations
              _ H1 A1) as [H2 A2].
  rewrite H2. split.
  - apply A2.
  - intros Hallow. now apply fold_stepEssential_covers.
Qed.

Lemma C4_witness :
  find (fun op => String.eqb (mm_model op) (m_name User)) modelOperations
    = Some (mappingFor "User")
  /\ In "findMany" essentialOperations
  /\ (In "findMany" (generatedOps cfgOnlyFindMany User modelOperations)
      <-> In "findMany" (generateModelActions cfgOnlyFindMany)).
Proof.
  split; [reflexivity |]. split; [simpl; auto |].
  apply (C4_essential_generated_iff_allowed cfgOnlyFindMany User
           modelOperations (mappingFor "User") "findMany").
  - reflexivity.
  - simpl; auto.
Defined.

(** An essential kind the schema mapping lacks is added by the second loop
    when the allow-list has it. *)
Example essential_added_when_mapping_lacks_it :
  generatedOps cfgPrefixed User [mkMapping "User" [("findMany", "findManyUser")]]
  = ["findMany"; "create"; "findUnique"; "update"; "delete"; "count"].
Proof. reflexivity. Qed.

(** ** Shield rule table (shield-generator.ts) *)

(** The rule table has the same thirteen keys for every model and every
    configuration. *)
Lemma ruleKeys_fixed (model : PrismaModel) :
  ShieldGenerator.ruleKeys model = map snd ShieldGenerator.operationMappings.
Proof. reflexivity. Qed.

(** C2.  For [User] with the default configuration (prefixed names, every
    action) the rule table's keys and the generated procedure names are
    disjoint: the table is keyed by bare aliases ("list", "findById", ...)
    whatever the prefixing option, while the router is keyed by
    "userFindMany", "userFindById", ....  With prefixing off the two sets
    still differ: "list" is a rule key and no procedure, "findMany" is a
    procedure and no rule key. *)
Theorem C2_rule_keys_differ_from_procedure_names :
  ShieldGenerator.ruleKeys User
    = [ "list"; "findById"; "findFirst"; "create"; "createMany"; "update";
        "updateMany"; "upsert"; "delete"; "deleteMany"; "count"; "aggregate";
        "groupBy" ]
  /\ procedureNames cfgPrefixed User modelOperations
    = [ "userFindById"; "userFindFirst"; "userFindMany"; "userCreate";
        "userCreateMany"; "userDelete"; "userUpdate"; "userDeleteMany";
        "userUpdateMany"; "userUpsert"; "userAggregate"; "userGroupBy";
        "userCount" ]
  /\ forallb (fun k => negb (Js.includes
                               (procedureNames cfgPrefixed User modelOperations) k))
             (ShieldGenerator.ruleKeys User) = true
  /\ Js.includes (ShieldGenerator.ruleKeys User) "list" = true
  /\ Js.includes (procedureNames cfgBare User modelOperations) "list" = false
  /\ Js.includes (procedureNames cfgBare User modelOperations) "findMany" = true
  /\ Js.includes (ShieldGenerator.ruleKeys User) "findMany" = false.
Proof. repeat split; reflexivity. Qed.

Lemma canRead_neq_canWrite (n : string) :
  String.eqb ("canRead" ++ n) ("canWrite" ++ n) = false.
Proof. reflexivity. Qed.

Lemma resolve_canRead (config : Config) (model : PrismaModel) :
  resolveRule (ShieldGenerator.generateRulesForModel config model)
              ("canRead" ++ m_name model)
  = Some (if String.eqb (defaultReadRule config) "auth" then IsAuthenticated
          else if String.eqb (defaultReadRule config) "deny" then Deny
          else if String.eqb (defaultReadRule config) "allow" then Allow
          else Deny).
Proof.
  unfold resolveRule, ShieldGenerator.generateRulesForModel.
  cbn [find r_name]. now rewrite String.eqb_refl.
Qed.

Lemma resolve_canWrite (config : Config) (model : PrismaModel) :
  resolveRule (ShieldGenerator.generateRulesForModel config model)
              ("canWrite" ++ m_name model)
  = Some (if String.eqb (defaultWriteRule config) "auth" then IsAuthenticated
          else if String.eqb (defaultWriteRule config) "deny" then Deny
          else if String.eqb (defaultWriteRule config) "allow" then Allow
          else Deny).
Proof.
  unfold resolveRule, ShieldGenerator.generateRulesForModel.
  cbn [find r_name].
  rewrite canRead_neq_canWrite, String.eqb_refl. reflexivity.
Qed.

Lemma unrecognized_rule (v : string) :
  Js.includes ["auth"; "deny"; "allow"] v = false ->
  String.eqb v "auth" = false /\ String.eqb v "deny" = false
  /\ String.eqb v "allow" = false.
Proof.
  unfold Js.includes. simpl. intros H.
  destruct (String.eqb v "auth"); [discriminate |].
  destruct (String.eqb v "deny"); [discriminate |].
  destruct (String.eqb v "allow"); [discriminate |].
  now repeat split.
Qed.

(** C3.  Whenever the default rule configured for an operation's bucket
    (defaultWriteRule for write operations, defaultReadRule for read
    operations) is none of the recognized values "auth", "deny", "allow",
    the rule the generated shield assigns to that operation is [deny]. *)
Theorem C3_unrecognized_default_rule_denies :
  forall (config : Config) (model : PrismaModel) (prismaOp shieldOp : string),
  In (prismaOp, shieldOp) ShieldGenerator.operationMappings ->
  Js.includes ["auth"; "deny"; "allow"]
    (if ShieldGenerator.isWriteOperation prismaOp
     then defaultWriteRule config else defaultReadRule config) = false ->
  ShieldGenerator.ruleFor config model shieldOp = Some Deny.
Proof.
  intros config model prismaOp shieldOp Hin Hbad.
  unfold ShieldGenerator.operationMappings in Hin. simpl in Hin.
  repeat (destruct Hin as [Hin | Hin];
          [ injection Hin as <- <-; cbn in Hbad;
            apply unrecognized_rule in Hbad; destruct Hbad as (Ha & Hd & Hl);
            unfold ShieldGenerator.ruleFor;
            cbn [ShieldGenerator.generateModelShieldConfig s_operations map
                 ShieldGenerator.operationMappings Js.lookup];
            cbn -[resolveRule ShieldGenerator.generateRulesForModel append];
            first [ rewrite resolve_canRead | rewrite resolve_canWrite ];
            now rewrite Ha, Hd, Hl
          | ]).
  contradiction.
Qed.

Lemma C3_witness :
  (In ("create", "create") ShieldGenerator.operationMappings
   /\ Js.includes ["auth"; "deny"; "allow"] (defaultWriteRule cfgBadRules) = false
   /\ ShieldGenerator.ruleFor cfgBadRules User "create" = Some Deny)
  /\ (In ("findMany", "list") ShieldGenerator.operationMappings
      /\ Js.includes ["auth"; "deny"; "allow"] (defaultReadRule cfgBadRules) = false
      /\ ShieldGenerator.ruleFor cfgBadRules User "list" = Some Deny).
Proof.
  split.
  - split; [simpl; auto 20 |]. split; [reflexivity |].
    apply (C3_unrecognized_default_rule_denies cfgBadRules User "create" "create").
    + simpl; auto 20.
    + reflexivity.
  - split; [simpl; auto 20 |]. split; [reflexivity |].
    apply (C3_unrecognized_default_rule_denies cfgBadRules User "findMany" "list").
    + simpl; auto 20.
    + reflexivity.
Defined.

(** The earlier revision fell back to [allow] for reads. *)
Example legacy_read_rule_falls_back_to_allow :
  resolveRule (ShieldGeneratorLegacy.generateRulesForModel cfgBadRules User)
              "canReadUser" = Some Allow.
Proof. reflexivity. Qed.

(** ** Soft-delete rewriting (code-generation-utils.ts, [generateHandlerCode]) *)

(** The marker convention of model-utils ([deletedAt] of type [DateTime])
    implies the name-only test of the handler generator. *)
Lemma hasSoftDeleteField_hasDeletedAt (model : PrismaModel) :
  hasSoftDeleteField model = true -> hasDeletedAt model = true.
Proof.
  unfold hasSoftDeleteField, hasDeletedAt. rewrite !existsb_exists.
  intros [f [Hin Hf]]. exists f. split; [assumption |].
  now apply andb_true_iff in Hf.
Qed.

Lemma soft_condition (config : Config) (model : PrismaModel) :
  hasDeletedAt model = true ->
  (enableSoftDeletes config || hasDeletedAt model) && hasDeletedAt model = true.
Proof. intros ->. now rewrite orb_true_r. Qed.

Lemma field_lookup (ps : list (string * value)) (k : string) (v : value) :
  field ps k = v -> v <> VUndefined -> Js.lookup ps k = Some v.
Proof.
  unfold field. destruct (Js.lookup ps k); intros H Hv; subst; [reflexivity |].
  now contradiction Hv.
Qed.

Lemma inject_where_missing (input : value) :
  truthy (field (spread input) "where") = false ->
  injectDeletedAtFilter input
  = Some (VObj (setField (spread input) "where" (VObj [("deletedAt", VNull)]))).
Proof. intros H. unfold injectDeletedAtFilter. rewrite H. reflexivity. Qed.

Lemma inject_marker_unset (input : value) (ps : list (string * value)) :
  field (spread input) "where" = VObj ps ->
  field ps "deletedAt" = VUndefined ->
  injectDeletedAtFilter input
  = Some (VObj (setField (spread input) "where"
                  (VObj (setField ps "deletedAt" VNull)))).
Proof.
  intros Hw Hd. unfold injectDeletedAtFilter. rewrite Hw. simpl.
  rewrite Hd. reflexivity.
Qed.

Lemma inject_marker_set (input : value) (ps : list (string * value)) :
  field (spread input) "where" = VObj ps ->
  field ps "deletedAt" <> VUndefined ->
  injectDeletedAtFilter input = Some (VObj (spread input)).
Proof.
  intros Hw Hd. unfold injectDeletedAtFilter. rewrite Hw. simpl.
  destruct (field ps "deletedAt") eqn:E; try (now contradiction Hd); simpl;
    rewrite setField_lookup_id; try reflexivity;
    apply field_lookup; try assumption; discriminate.
Qed.

(** C5.  For every entity with a soft-delete marker (a [deletedAt] field of
    type [DateTime]), whatever the [enableSoftDeletes] toggle:
    - findMany, findFirst, count, aggregate, groupBy and findUnique call the
      data layer with the caller's arguments in which [where] carries
      [deletedAt: null], unless the caller's [where] already sets
      [deletedAt], in which case the arguments pass unchanged;
    - findUnique (and findFirst) raise NOT_FOUND on a result whose
      [deletedAt] is truthy, as every [Date] a DateTime column holds is;
    - delete calls [update] and deleteMany calls [updateMany], with the
      caller's [where] and [data: { deletedAt: new Date() }]. *)
Theorem C5_soft_delete_rewrite :
  forall (config : Config) (model : PrismaModel) (modelName operationName : string)
         (env : Env) (input : value),
  hasSoftDeleteField model = true ->
  let handler op := generateHandlerCode op modelName operationName config model in
  let call m a := Some (mkCall (Js.toLowerCase modelName) m a) in
  let q := spread input in
  (forall op,
     In op ["findMany"; "findFirst"; "count"; "aggregate"; "groupBy"; "findUnique"] ->
     (truthy (field q "where") = false ->
      buildCall (handler op) env input
      = call (OperationUtils.getPrismaMethodName op)
             (VObj (setField q "where" (VObj [("deletedAt", VNull)]))))
     /\ (forall ps, field q "where" = VObj ps ->
           field ps "deletedAt" = VUndefined ->
           buildCall (handler op) env input
           = call (OperationUtils.getPrismaMethodName op)
                  (VObj (setField q "where" (VObj (setField ps "deletedAt" VNull)))))
     /\ (forall ps, field q "where" = VObj ps ->
           field ps "deletedAt" <> VUndefined ->
           buildCall (handler op) env input
           = call (OperationUtils.getPrismaMethodName op) (VObj q)))
  /\ (forall op result,
        op = "findUnique" \/ op = "findFirst" ->
        truthy (optProp result "deletedAt") = true ->
        finish (handler op) env result
        = Throw (ORPCError "NOT_FOUND" (modelName ++ " not found")))
  /\ (forall w, getProp input "where" = Some w ->
        buildCall (handler "delete") env input
        = call "update"
               (VObj [("where", w);
                      ("data", VObj [("deletedAt", VDate (nowDate env))])]))
  /\ (forall w, getProp input "where" = Some w ->
        buildCall (handler "deleteMany") env input
        = call "updateMany"
               (VObj [("where", w);
                      ("data", VObj [("deletedAt", VDate (nowDate env))])])).
Proof.
  intros config model modelName operationName env input Hmarker handler call q.
  apply hasSoftDeleteField_hasDeletedAt in Hmarker.
  pose proof (soft_condition config model Hmarker) as Hsoft.
  assert (Hread : forall op,
            In op ["findMany"; "findFirst"; "count"; "aggregate"; "groupBy"; "findUnique"] ->
            buildCall (handler op) env input
            = bind (injectDeletedAtFilter input)
                (fun a => call (OperationUtils.getPrismaMethodName op) a)).
  { intros op Hop. unfold buildCall, handler, generateHandlerCode.
    cbn [h_call h_modelVar].
    destruct Hop as [<- | [<- | [<- | [<- | [<- | [<- | []]]]]]];
      unfold selectCall; cbv zeta; rewrite Hsoft; reflexivity. }
  split; [| split; [| split]].
  - intros op Hop. rewrite (Hread op Hop). repeat split.
    + intros Hw. unfold q in *. now rewrite inject_where_missing.
    + intros ps Hw Hd. unfold q in *. now rewrite (inject_marker_unset _ ps).
    + intros ps Hw Hd. unfold q in *. now rewrite (inject_marker_set _ ps).
  - intros op result Hop Hdel. unfold finish, checkNotFound, handler.
    cbn [generateHandlerCode h_notFound h_modelName].
    assert (Hnf : selectNotFound op config model = ThrowIfNullOrDeleted).
    { unfold selectNotFound. rewrite Hsoft. now destruct Hop as [-> | ->]. }
    rewrite Hnf. unfold notFoundError. cbn [h_modelName].
    rewrite Hdel. now destruct (truthy result).
  - intros w Hw. unfold buildCall, handler, generateHandlerCode.
    cbn [h_call h_modelVar]. unfold selectCall. cbv zeta. rewrite Hsoft.
    cbn. rewrite Hw. reflexivity.
  - intros w Hw. unfold buildCall, handler, generateHandlerCode.
    cbn [h_call h_modelVar]. unfold selectCall. cbv zeta. rewrite Hsoft.
    cbn. rewrite Hw. reflexivity.
Qed.

Lemma C5_witness :
  hasSoftDeleteField Post = true
  /\ buildCall (generateHandlerCode "findMany" "Post" "findManyPost" cfgSoftDeletes Post)
       (envReturning (VArr [])) (VObj [])
     = Some (mkCall "post" "findMany"
               (VObj [("where", VObj [("deletedAt", VNull)])]))
  /\ buildCall (generateHandlerCode "delete" "Post" "deleteOnePost" cfgSoftDeletes Post)
       (envReturning deletedPost) (VObj [("where", whereId)])
     = Some (mkCall "post" "update"
               (VObj [("where", whereId);
                      ("data", VObj [("deletedAt", VDate 1700000000000)])])).
Proof.
  split; [reflexivity |]. split.
  - destruct (C5_soft_delete_rewrite cfgSoftDeletes Post "Post" "findManyPost"
                (envReturning (VArr [])) (VObj []) eq_refl) as [Hreads _].
    destruct (Hreads "findMany" (or_introl eq_refl)) as [Hmissing _].
    exact (Hmissing eq_refl).
  - destruct (C5_soft_delete_rewrite cfgSoftDeletes Post "Post" "deleteOnePost"
                (envReturning deletedPost) (VObj [("where", whereId)]) eq_refl)
      as (_ & _ & Hdelete & _).
    exact (Hdelete whereId eq_refl).
Defined.

(** ** Not-found policy and result shaping *)

(** C6 (as stated, refuted).  A find-unique on [Post] whose lookup returns a
    record (a row whose [deletedAt] is set, asked for by naming the marker
    in [where]) still raises NOT_FOUND: the error is not raised "exactly
    when the lookup returns no record". *)
Lemma C6_counterexample :
  truthy deletedPost = true
  /\ buildCall (generateHandlerCode "findUnique" "Post" "findUniquePost" cfgPrefixed Post)
       (envReturning deletedPost) findDeletedInput
     = Some (mkCall "post" "findUnique" findDeletedInput)
  /\ prisma (envReturning deletedPost) (mkCall "post" "findUnique" findDeletedInput)
     = Resolved deletedPost
  /\ runHandler (generateHandlerCode "findUnique" "Post" "findUniquePost" cfgPrefixed Post)
       (envReturning deletedPost) findDeletedInput
     = Throw (ORPCError "NOT_FOUND" "Post not found").
Proof. repeat split; reflexivity. Qed.

Lemma selectNotFound_other (config : Config) (model : PrismaModel) (op : string) :
  op <> "findUnique" -> op <> "findFirst" ->
  selectNotFound op config model = NoNotFoundCheck.
Proof.
  intros H1 H2. unfold selectNotFound.
  apply String.eqb_neq in H1. apply String.eqb_neq in H2. now rewrite H1, H2.
Qed.

Lemma selectNotFound_lookup (config : Config) (model : PrismaModel) (op : string) :
  op = "findUnique" \/ op = "findFirst" ->
  selectNotFound op config model
  = if hasDeletedAt model then ThrowIfNullOrDeleted else ThrowIfNull.
Proof.
  intros [-> | ->]; unfold selectNotFound; simpl;
    destruct (enableSoftDeletes config), (hasDeletedAt model); reflexivity.
Qed.

(** C6 (amended).  Once the data-access call has returned [result]:
    - findUnique and findFirst raise NOT_FOUND exactly when [result] is
      falsy or, for an entity with a [deletedAt] field, [result.deletedAt]
      is truthy, and return the shaped result otherwise;
    - every other operation kind raises nothing and returns the shaped
      result, zero-row results included;
    - the shaped result is [{ count: result }] for count and [result] itself
      for every other kind, placed in the success envelope when
      [wrapResponses] is on. *)
Theorem C6_not_found_policy :
  forall (config : Config) (model : PrismaModel)
         (modelName operationName baseOpType : string)
         (env : Env) (input : value) (c : Call) (result : value),
  let h := generateHandlerCode baseOpType modelName operationName config model in
  buildCall h env input = Some c ->
  prisma env c = Resolved result ->
  (baseOpType = "findUnique" \/ baseOpType = "findFirst" ->
   runHandler h env input
   = if negb (truthy result)
        || (hasDeletedAt model && truthy (optProp result "deletedAt"))
     then Throw (ORPCError "NOT_FOUND" (modelName ++ " not found"))
     else Return (shapeResult h env result))
  /\ (baseOpType <> "findUnique" -> baseOpType <> "findFirst" ->
      runHandler h env input = Return (shapeResult h env result))
  /\ (wrapResponses config = false ->
      shapeResult h env result
      = if String.eqb baseOpType "count" then VObj [("count", result)] else result)
  /\ (wrapResponses config = true ->
      shapeResult h env result
      = createSuccessResponse env
          (if String.eqb baseOpType "count" then VObj [("count", result)] else result)
          (VObj [("operation", VStr baseOpType)])).
Proof.
  intros config model modelName operationName baseOpType env input c result h Hc Hr.
  unfold runHandler. rewrite Hc, Hr. unfold finish, checkNotFound.
  repeat split.
  - intros Hop. unfold h at 1. cbn [generateHandlerCode h_notFound].
    rewrite (selectNotFound_lookup config model baseOpType Hop).
    unfold notFoundError, h. cbn [generateHandlerCode h_modelName].
    destruct (hasDeletedAt model), (truthy result),
             (truthy (optProp result "deletedAt")); reflexivity.
  - intros H1 H2. unfold h at 1. cbn [generateHandlerCode h_notFound].
    now rewrite selectNotFound_other.
  - intros Hw. unfold shapeResult, h. cbn [generateHandlerCode h_return].
    unfold selectReturn. rewrite Hw.
    now destruct (String.eqb baseOpType "count").
  - intros Hw. unfold shapeResult, h. cbn [generateHandlerCode h_return h_baseOpType].
    unfold selectReturn. rewrite Hw.
    now destruct (String.eqb baseOpType "count").
Qed.

Lemma C6_witness :
  (buildCall (generateHandlerCode "deleteMany" "User" "deleteManyUser" cfgPrefixed User)
     (envReturning (VObj [("count", VNum 0)])) (VObj [("where", whereId)])
   = Some (mkCall "user" "deleteMany" (VObj [("where", whereId)]))
   /\ prisma (envReturning (VObj [("count", VNum 0)]))
        (mkCall "user" "deleteMany" (VObj [("where", whereId)]))
      = Resolved (VObj [("count", VNum 0)])
   /\ runHandler (generateHandlerCode "deleteMany" "User" "deleteManyUser" cfgPrefixed User)
        (envReturning (VObj [("count", VNum 0)])) (VObj [("where", whereId)])
      = Return (VObj [("count", VNum 0)]))
  /\ runHandler (generateHandlerCode "findUnique" "User" "findUniqueUser" cfgPrefixed User)
       (envReturning VNull) (VObj [("where", whereId)])
     = Throw (ORPCError "NOT_FOUND" "User not found").
Proof.
  split.
  - split; [reflexivity |]. split; [reflexivity |].
    destruct (C6_not_found_policy cfgPrefixed User "User" "deleteManyUser"
                "deleteMany" (envReturning (VObj [("count", VNum 0)]))
                (VObj [("where", whereId)])
                (mkCall "user" "deleteMany" (VObj [("where", whereId)]))
                (VObj [("count", VNum 0)]) eq_refl eq_refl) as (_ & Hother & _).
    apply Hother; discriminate.
  - destruct (C6_not_found_policy cfgPrefixed User "User" "findUniqueUser"
                "findUnique" (envReturning VNull) (VObj [("where", whereId)])
                (mkCall "user" "findUnique" (VObj [("where", whereId)]))
                VNull eq_refl eq_refl) as (Hlookup & _).
    exact (Hlookup (or_introl eq_refl)).
Defined.

(** ** Error taxonomy ([prismaErrorMapper] of the emitted errorHandling.ts) *)

(** C7 (as stated, refuted).  An error that already has the ORPC shape is
    thrown again as it is: [{ code: "FORBIDDEN", status: 403 }] leaves the
    mapper unchanged, and its code is none of the four kinds. *)
Lemma C7_counterexample :
  ErrorHandling.prismaErrorMapper forbiddenError = ErrorHandling.Rethrow forbiddenError
  /\ optProp forbiddenError "code" = VStr "FORBIDDEN"
  /\ Js.includes ErrorHandling.taxonomy "FORBIDDEN" = false.
Proof. repeat split; reflexivity. Qed.

Lemma knownCode_cases (code : value) (kind : string) :
  ErrorHandling.knownCode code = Some kind ->
  (kind = "CONFLICT" /\ (code = VStr "P2002" \/ code = VStr "P2003"))
  \/ (kind = "NOT_FOUND"
      /\ (code = VStr "P2025" \/ code = VStr "P2016" \/ code = VStr "P2021"))
  \/ (kind = "BAD_REQUEST" /\ (code = VStr "P2022" \/ code = VStr "P2000")).
Proof.
  unfold ErrorHandling.knownCode, strictEqStr.
  destruct code as [| | b | n | | s | t | l | ps]; simpl; try discriminate.
  destruct (String.eqb s "P2002") eqn:E1;
    [apply String.eqb_eq in E1; subst; intros [= <-]; auto |].
  destruct (String.eqb s "P2003") eqn:E2;
    [apply String.eqb_eq in E2; subst; intros [= <-]; auto |].
  destruct (String.eqb s "P2025") eqn:E3;
    [apply String.eqb_eq in E3; subst; intros [= <-]; auto 6 |].
  destruct (String.eqb s "P2016") eqn:E4;
    [apply String.eqb_eq in E4; subst; intros [= <-]; auto 6 |].
  destruct (String.eqb s "P2021") eqn:E5;
    [apply String.eqb_eq in E5; subst; intros [= <-]; auto 6 |].
  destruct (String.eqb s "P2022") eqn:E6;
    [apply String.eqb_eq in E6; subst; intros [= <-]; auto 6 |].
  destruct (String.eqb s "P2000") eqn:E7;
    [apply String.eqb_eq in E7; subst; intros [= <-]; auto 6 |].
  discriminate.
Qed.

(** C7 (amended).  The mapper is total and always throws.  An error that
    already has the ORPC shape (a string [code] and a numeric [status]) is
    re-thrown unchanged.  Every other input is replaced by an ORPC error of
    exactly one of the four kinds: a known Prisma request error with code
    P2002 or P2003 gives CONFLICT, with P2025, P2016 or P2021 NOT_FOUND,
    with P2022 or P2000 BAD_REQUEST; a Prisma validation error gives
    BAD_REQUEST; anything else INTERNAL_SERVER_ERROR. *)
Theorem C7_error_mapper_total :
  forall error : value,
  (ErrorHandling.isORPCError error = true ->
   ErrorHandling.prismaErrorMapper error = ErrorHandling.Rethrow error)
  /\ (ErrorHandling.isORPCError error = false ->
      (exists kind, In kind ErrorHandling.taxonomy
                    /\ ErrorHandling.prismaErrorMapper error
                       = ErrorHandling.ThrowORPC kind)
      /\ (forall code,
            ErrorHandling.isPrismaKnownError error = true ->
            optProp error "code" = VStr code ->
            (In code ["P2002"; "P2003"] ->
             ErrorHandling.prismaErrorMapper error = ErrorHandling.ThrowORPC "CONFLICT")
            /\ (In code ["P2025"; "P2016"; "P2021"] ->
                ErrorHandling.prismaErrorMapper error
                = ErrorHandling.ThrowORPC "NOT_FOUND")
            /\ (In code ["P2022"; "P2000"] ->
                ErrorHandling.prismaErrorMapper error
                = ErrorHandling.ThrowORPC "BAD_REQUEST"))
      /\ (ErrorHandling.isPrismaValidationError error = true ->
          ErrorHandling.prismaErrorMapper error = ErrorHandling.ThrowORPC "BAD_REQUEST")
      /\ ((ErrorHandling.isPrismaKnownError error = false
           \/ ErrorHandling.knownCode (optProp error "code") = None) ->
          ErrorHandling.isPrismaValidationError error = false ->
          ErrorHandling.prismaErrorMapper error
          = ErrorHandling.ThrowORPC "INTERNAL_SERVER_ERROR")).
Proof.
  intros error. split.
  - intros H. unfold ErrorHandling.prismaErrorMapper. now rewrite H.
  - intros H. unfold ErrorHandling.prismaErrorMapper. rewrite H.
    split; [| split; [| split]].
    + destruct (ErrorHandling.isPrismaKnownError error).
      * destruct (ErrorHandling.knownCode (optProp error "code")) as [kind |] eqn:Ek.
        -- exists kind. split; [| reflexivity].
           apply knownCode_cases in Ek.
           destruct Ek as [[-> _] | [[-> _] | [-> _]]]; simpl; auto.
        -- destruct (ErrorHandling.isPrismaValidationError error);
             eexists; (split; [| reflexivity]); simpl; auto.
      * destruct (ErrorHandling.isPrismaValidationError error);
          eexists; (split; [| reflexivity]); simpl; auto.
    + intros code Hk Hcode. rewrite Hk, Hcode. repeat split; intros Hin; simpl in Hin;
        repeat (destruct Hin as [<- | Hin]; [reflexivity |]); contradiction.
    + intros Hv.
      destruct (ErrorHandling.isPrismaKnownError error) eqn:Hk.
      * unfold ErrorHandling.isPrismaKnownError in Hk.
        unfold ErrorHandling.isPrismaValidationError in Hv.
        apply andb_true_iff in Hk. destruct Hk as [_ Hname].
        apply andb_true_iff in Hv. destruct Hv as [_ Hname'].
        destruct (optProp error "name") as [| | b | n | | s | t | l | ps];
          simpl in Hname, Hname'; try discriminate.
        apply String.eqb_eq in Hname, Hname'. congruence.
      * now rewrite Hv.
    + intros [Hk | Hk] Hv.
      * now rewrite Hk, Hv.
      * rewrite Hk, Hv. now destruct (ErrorHandling.isPrismaKnownError error).
Qed.

Lemma C7_witness :
  ErrorHandling.isORPCError uniqueViolation = false
  /\ ErrorHandling.isPrismaKnownError uniqueViolation = true
  /\ ErrorHandling.prismaErrorMapper uniqueViolation = ErrorHandling.ThrowORPC "CONFLICT".
Proof.
  split; [reflexivity |]. split; [reflexivity |].
  destruct (C7_error_mapper_total uniqueViolation) as [_ Hmap].
  destruct (Hmap eq_refl) as (_ & Hknown & _).
  destruct (Hknown "P2002" eq_refl eq_refl) as [Hconflict _].
  apply Hconflict. simpl. auto.
Defined.

(** ** Group-by and aggregate call shapes *)

Lemma field_condset_same (b : bool) (args : list (string * value))
  (k : string) (v : value) :
  field (if b then setField args k v else args) k = if b then v else field args k.
Proof. destruct b; [apply field_setField_same | reflexivity]. Qed.

Lemma field_condset_other (b : bool) (args : list (string * value))
  (k k' : string) (v : value) :
  String.eqb k' k = false ->
  field (if b then setField args k v else args) k' = field args k'.
Proof. intros H. destruct b; [now apply field_setField_other | reflexivity]. Qed.

Lemma field_copyIfTruthy_same (input : value) (k : string)
  (args : list (string * value)) :
  field (copyIfTruthy input k args) k
  = if truthy (optProp input k) then optProp input k else field args k.
Proof. unfold copyIfTruthy. apply field_condset_same. Qed.

(** What the first chunk of the group-by template leaves in [args]. *)
Lemma groupByCopied_fields (input : value) :
  let a := groupByCopied input in
  field a "by"
  = (if truthy (optProp input "by")
     then if truthy (optProp (optProp input "by") "length")
          then optProp input "by" else VArr [VStr "id"]
     else VUndefined)
  /\ field a "take"
     = (if truthy (optProp input "take")
        then mathMin500 (optProp input "take") else VUndefined)
  /\ field a "skip"
     = (if truthy (optProp input "skip") then optProp input "skip" else VUndefined)
  /\ field a "orderBy"
     = (if truthy (optProp input "orderBy") then optProp input "orderBy"
        else VUndefined)
  /\ field a "_sum" = VUndefined
  /\ field a "_avg" = VUndefined.
Proof.
  unfold groupByCopied. cbv zeta. repeat split.
  - rewrite !field_copyIfTruthy_other, field_condset_other,
      !field_copyIfTruthy_other, field_condset_same by reflexivity.
    reflexivity.
  - rewrite field_copyIfTruthy_other, field_condset_same,
      !field_copyIfTruthy_other, field_condset_other by reflexivity.
    reflexivity.
  - rewrite field_copyIfTruthy_same, field_condset_other,
      !field_copyIfTruthy_other, field_condset_other by reflexivity.
    reflexivity.
  - rewrite field_copyIfTruthy_other, field_condset_other,
      field_copyIfTruthy_other, field_copyIfTruthy_same,
      field_copyIfTruthy_other, field_condset_other by reflexivity.
    reflexivity.
  - rewrite field_copyIfTruthy_other, field_condset_other,
      !field_copyIfTruthy_other, field_condset_other by reflexivity.
    reflexivity.
  - rewrite field_copyIfTruthy_other, field_condset_other,
      !field_copyIfTruthy_other, field_condset_other by reflexivity.
    reflexivity.
Qed.

Lemma groupByOrdered_other (args : list (string * value)) (k : string) :
  String.eqb k "orderBy" = false ->
  field (groupByOrdered args) k = field args k.
Proof. intros H. unfold groupByOrdered. now apply field_condset_other. Qed.

Lemma groupByOrdered_orderBy (args : list (string * value)) :
  field (groupByOrdered args) "orderBy"
  = if truthy (field args "orderBy") then field args "orderBy"
    else if truthy (field args "take") || truthy (field args "skip")
         then VArr [VObj [("id", VStr "asc")]]
         else field args "orderBy".
Proof.
  unfold groupByOrdered. rewrite field_condset_same.
  destruct (truthy (field args "orderBy")),
           (truthy (field args "take") || truthy (field args "skip"));
    reflexivity.
Qed.

(** What the paging part of the group-by template leaves in [args]. *)
Lemma groupByPaging_fields (input : value) :
  let a := groupByPaging input in
  field a "by"
  = (if truthy (optProp input "by")
     then if truthy (optProp (optProp input "by") "length")
          then optProp input "by" else VArr [VStr "id"]
     else VUndefined)
  /\ field a "take"
     = (if truthy (optProp input "take")
        then mathMin500 (optProp input "take") else VUndefined)
  /\ field a "skip"
     = (if truthy (optProp input "skip") then optProp input "skip" else VUndefined)
  /\ field a "orderBy"
     = (if truthy (optProp input "orderBy") then optProp input "orderBy"
        else if truthy (field a "take") || truthy (field a "skip")
             then VArr [VObj [("id", VStr "asc")]]
             else VUndefined)
  /\ field a "_sum" = VUndefined
  /\ field a "_avg" = VUndefined.
Proof.
  destruct (groupByCopied_fields input) as (Hby & Htake & Hskip & Hord & Hsum & Havg).
  cbv zeta in *. unfold groupByPaging.
  rewrite groupByOrdered_orderBy.
  rewrite !groupByOrdered_other by reflexivity.
  rewrite Hby, Htake, Hskip, Hord, Hsum, Havg.
  repeat split.
  destruct (truthy (optProp input "orderBy")) eqn:E; [now rewrite E | reflexivity].
Qed.

Lemma groupBySelections_other (aggs : Aggregations) (input : value)
  (args : list (string * value)) (k : string) :
  Js.includes aggregateSelectors k = false ->
  field (groupBySelections aggs input args) k = field args k.
Proof.
  unfold Js.includes, aggregateSelectors. simpl. intros H.
  destruct (String.eqb k "_count") eqn:E1; [discriminate |].
  destruct (String.eqb k "_avg") eqn:E2; [discriminate |].
  destruct (String.eqb k "_sum") eqn:E3; [discriminate |].
  destruct (String.eqb k "_min") eqn:E4; [discriminate |].
  destruct (String.eqb k "_max") eqn:E5; [discriminate |].
  unfold groupBySelections. cbv zeta.
  now rewrite !field_copyIfSupported_other by assumption.
Qed.

Lemma groupBySelections_sum_avg (aggs : Aggregations) (input : value)
  (args : list (string * value)) :
  supportsSum aggs = false -> supportsAvg aggs = false ->
  field (groupBySelections aggs input args) "_sum" = field args "_sum"
  /\ field (groupBySelections aggs input args) "_avg" = field args "_avg".
Proof.
  intros Hs Ha. unfold groupBySelections. cbv zeta. rewrite Hs, Ha.
  change (copyIfSupported false input "_avg"
            (copyIfSupported false input "_sum"
               (copyIfSupported (supportsCount aggs) input "_count" args)))
    with (copyIfSupported (supportsCount aggs) input "_count" args).
  split; now rewrite !field_copyIfSupported_other by reflexivity.
Qed.

Lemma soft_condition_off (config : Config) (model : PrismaModel) :
  hasDeletedAt model = false ->
  (enableSoftDeletes config || hasDeletedAt model) && hasDeletedAt model = false.
Proof. intros ->. now rewrite andb_false_r. Qed.

Lemma buildCall_groupBy_plain (config : Config) (model : PrismaModel)
  (modelName operationName : string) (env : Env) (input : value) :
  hasDeletedAt model = false ->
  buildCall (generateHandlerCode "groupBy" modelName operationName config model)
            env input
  = Some (mkCall (Js.toLowerCase modelName) "groupBy"
            (groupByArgs (getAvailableAggregations model) input)).
Proof.
  intros H. unfold buildCall, generateHandlerCode. cbn [h_call h_modelVar].
  unfold selectCall. cbv zeta. rewrite soft_condition_off by assumption.
  reflexivity.
Qed.

Lemma buildCall_aggregate_plain (config : Config) (model : PrismaModel)
  (modelName operationName : string) (env : Env) (input : value) :
  hasDeletedAt model = false ->
  buildCall (generateHandlerCode "aggregate" modelName operationName config model)
            env input
  = Some (mkCall (Js.toLowerCase modelName) "aggregate" (aggregateArgs input)).
Proof.
  intros H. unfold buildCall, generateHandlerCode. cbn [h_call h_modelVar].
  unfold selectCall. cbv zeta. rewrite soft_condition_off by assumption.
  reflexivity.
Qed.

(** On an entity without a [deletedAt] field the group-by template does
    what the specification asks: an empty [by] becomes [["id"]] and a call
    that carries [take] or [skip] always carries an ordering, the
    synthesized [[{ id: "asc" }]] when the caller gave none. *)
Lemma groupBy_plain_defaults (config : Config) (model : PrismaModel)
  (modelName operationName : string) (env : Env) (input : value) :
  hasDeletedAt model = false ->
  exists a,
    buildCall (generateHandlerCode "groupBy" modelName operationName config model)
              env input
    = Some (mkCall (Js.toLowerCase modelName) "groupBy" (VObj a))
    /\ (optProp input "by" = VArr [] -> field a "by" = VArr [VStr "id"])
    /\ (truthy (field a "take") || truthy (field a "skip") = true ->
        truthy (optProp input "orderBy") = false ->
        field a "orderBy" = VArr [VObj [("id", VStr "asc")]])
    /\ (truthy (field a "take") || truthy (field a "skip") = true ->
        truthy (field a "orderBy") = true).
Proof.
  intros Hplain. eexists. split; [now apply buildCall_groupBy_plain |].
  rewrite !groupBySelections_other by reflexivity.
  destruct (groupByPaging_fields input) as (Hby & Htake & Hskip & Hord & _).
  cbv zeta in *. repeat split.
  - intros Hempty. rewrite Hby, Hempty. reflexivity.
  - intros Hpaged Hno. rewrite Hord, Hno, Hpaged. reflexivity.
  - intros Hpaged. rewrite Hord, Hpaged.
    now destruct (truthy (optProp input "orderBy")) eqn:E.
Qed.

(** C8.  On [Post], which has a [deletedAt] field, the group-by handler
    takes the soft-delete read template: [{ by: [], take: 10 }] reaches the
    data layer as [{ by: [], take: 10, where: { deletedAt: null } }], with
    the empty grouping list kept and no ordering synthesized.  On [User],
    without the field, the same request becomes
    [{ by: ["id"], take: 10, orderBy: [{ id: "asc" }] }]. *)
Theorem C8_groupBy_defaults_skipped_on_soft_delete :
  buildCall (generateHandlerCode "groupBy" "Post" "groupByPost" cfgPrefixed Post)
    (envReturning (VArr [])) groupByEmptyTake10
  = Some (mkCall "post" "groupBy"
            (VObj [ ("by", VArr []); ("take", VNum 10);
                    ("where", VObj [("deletedAt", VNull)]) ]))
  /\ buildCall (generateHandlerCode "groupBy" "User" "groupByUser" cfgPrefixed User)
       (envReturning (VArr [])) groupByEmptyTake10
     = Some (mkCall "user" "groupBy"
               (VObj [ ("by", VArr [VStr "id"]); ("take", VNum 10);
                       ("orderBy", VArr [VObj [("id", VStr "asc")]]) ])).
Proof. split; reflexivity. Qed.

(** On an entity without a [deletedAt] field and with zero non-list numeric
    fields the group-by call never carries [_sum] or [_avg]: the group-by
    template consults [getAvailableAggregations]. *)
Lemma groupBy_plain_drops_sum_avg (config : Config) (model : PrismaModel)
  (modelName operationName : string) (env : Env) (input : value) :
  hasDeletedAt model = false ->
  numericFields model = [] ->
  exists a,
    buildCall (generateHandlerCode "groupBy" modelName operationName config model)
              env input
    = Some (mkCall (Js.toLowerCase modelName) "groupBy" (VObj a))
    /\ field a "_sum" = VUndefined
    /\ field a "_avg" = VUndefined.
Proof.
  intros Hplain Hnum. eexists. split; [now apply buildCall_groupBy_plain |].
  assert (Hs : supportsSum (getAvailableAggregations model) = false)
    by (unfold getAvailableAggregations; simpl; now rewrite Hnum).
  assert (Ha : supportsAvg (getAvailableAggregations model) = false)
    by (unfold getAvailableAggregations; simpl; now rewrite Hnum).
  destruct (groupBySelections_sum_avg (getAvailableAggregations model) input
              (groupByPaging input) Hs Ha) as [H1 H2].
  destruct (groupByPaging_fields input) as (_ & _ & _ & _ & Hsum & Havg).
  cbv zeta in *. rewrite H1, H2. now split.
Qed.

(** The aggregate template looks at the caller's selection only: it adds
    [_count: { _all: true }] when none of [_count], [_avg], [_sum], [_min],
    [_max] is selected and forwards the selection unchanged otherwise. *)
Lemma aggregateArgs_selection (input : value) :
  let own := if truthy input then spread input else [] in
  ((forall k, In k aggregateSelectors -> truthy (field own k) = false) ->
   aggregateArgs input
   = VObj (setField own "_count" (VObj [("_all", VBool true)])))
  /\ ((exists k, In k aggregateSelectors /\ truthy (field own k) = true) ->
      aggregateArgs input = VObj own).
Proof.
  intros own. split.
  - intros Hnone. unfold aggregateArgs. fold own.
    assert (Hall : forallb (fun k => negb (truthy (field own k))) aggregateSelectors
                   = true).
    { apply forallb_forall. intros k Hk. now rewrite (Hnone k Hk). }
    now rewrite Hall.
  - intros [k [Hk Hsel]]. unfold aggregateArgs. fold own.
    destruct (forallb (fun k => negb (truthy (field own k))) aggregateSelectors)
      eqn:Hall; [| reflexivity].
    rewrite forallb_forall in Hall. specialize (Hall k Hk).
    rewrite Hsel in Hall. discriminate Hall.
Qed.

(** C9.  The claim fails at two places of [generateHandlerCode].

    The aggregate template never consults the model's fields.  [User] has no
    numeric field, [getAvailableAggregations] reports [_sum] as unsupported
    and the group-by handler drops it from
    [{ by: ["name"], _sum: { id: true } }]; the aggregate handler sends
    [{ _sum: { id: true } }] as it is.

    On a model with a [deletedAt] field aggregate and groupBy take the
    soft-delete read template, which has neither the filter nor the count
    fallback.  [Post] has no numeric field either, yet its group-by call
    carries [_sum]; and the empty aggregate request [{}], which on [User]
    becomes [{ _count: { _all: true } }], reaches the data layer on [Post]
    as [{ where: { deletedAt: null } }], an aggregate that selects
    nothing. *)
Theorem C9_aggregate_skips_eligibility_and_fallback :
  numericFields User = []
  /\ supportsSum (getAvailableAggregations User) = false
  /\ buildCall (generateHandlerCode "groupBy" "User" "groupByUser" cfgPrefixed User)
       (envReturning (VArr []))
       (VObj [("by", VArr [VStr "name"]); ("_sum", VObj [("id", VBool true)])])
     = Some (mkCall "user" "groupBy" (VObj [("by", VArr [VStr "name"])]))
  /\ buildCall (generateHandlerCode "aggregate" "User" "aggregateUser" cfgPrefixed User)
       (envReturning VNull) aggregateSumInput
     = Some (mkCall "user" "aggregate"
               (VObj [("_sum", VObj [("id", VBool true)])]))
  /\ buildCall (generateHandlerCode "aggregate" "User" "aggregateUser" cfgPrefixed User)
       (envReturning VNull) (VObj [])
     = Some (mkCall "user" "aggregate"
               (VObj [("_count", VObj [("_all", VBool true)])]))
  /\ hasDeletedAt Post = true
  /\ numericFields Post = []
  /\ buildCall (generateHandlerCode "groupBy" "Post" "groupByPost" cfgPrefixed Post)
       (envReturning (VArr []))
       (VObj [("by", VArr [VStr "title"]); ("_sum", VObj [("id", VBool true)])])
     = Some (mkCall "post" "groupBy"
               (VObj [ ("by", VArr [VStr "title"]);
                       ("_sum", VObj [("id", VBool true)]);
                       ("where", VObj [("deletedAt", VNull)]) ]))
  /\ buildCall (generateHandlerCode "aggregate" "Post" "aggregatePost" cfgPrefixed Post)
       (envReturning VNull) (VObj [])
     = Some (mkCall "post" "aggregate"
               (VObj [("where", VObj [("deletedAt", VNull)])])).
Proof. repeat split. Qed.

(** C10 (as stated, refuted).  A group-by request on [User] that supplies
    [take: 0] reaches the data layer without any [take]: the value is not
    min(0, 500) = 0. *)
Lemma C10_counterexample :
  optProp groupByTake0 "take" = VNum 0
  /\ buildCall (generateHandlerCode "groupBy" "User" "groupByUser" cfgPrefixed User)
       (envReturning (VArr [])) groupByTake0
     = Some (mkCall "user" "groupBy" (VObj [("by", VArr [VStr "name"])]))
  /\ field [("by", VArr [VStr "name"])] "take" <> VNum (Z.min 0 500).
Proof. repeat split; try reflexivity. discriminate. Qed.

(** C10 (amended).  For an entity without a [deletedAt] field and whatever
    the configuration, a group-by request with a non-zero [take] of [n]
    reaches the data layer with [take] equal to min(n, 500), and a [take]
    of 0 is dropped from the call; findMany and findFirst forward the
    caller's arguments, [take] included, unchanged. *)
Theorem C10_groupBy_take_capped :
  forall (config : Config) (model : PrismaModel) (modelName operationName : string)
         (env : Env) (input : value) (n : Z),
  hasDeletedAt model = false ->
  optProp input "take" = VNum n ->
  (exists a,
     buildCall (generateHandlerCode "groupBy" modelName operationName config model)
               env input
     = Some (mkCall (Js.toLowerCase modelName) "groupBy" (VObj a))
     /\ field a "take" = if (n =? 0)%Z then VUndefined else VNum (Z.min n 500))
  /\ (forall op, op = "findMany" \/ op = "findFirst" ->
        buildCall (generateHandlerCode op modelName operationName config model)
                  env input
        = Some (mkCall (Js.toLowerCase modelName) op input)).
Proof.
  intros config model modelName operationName env input n Hplain Htake. split.
  - eexists. split; [now apply buildCall_groupBy_plain |].
    rewrite groupBySelections_other by reflexivity.
    destruct (groupByPaging_fields input) as (_ & Ht & _).
    cbv zeta in Ht. rewrite Ht, Htake. simpl.
    now destruct (n =? 0)%Z.
  - intros op Hop. unfold buildCall, generateHandlerCode. cbn [h_call h_modelVar].
    unfold selectCall. cbv zeta. rewrite soft_condition_off by assumption.
    destruct Hop as [-> | ->]; reflexivity.
Qed.

Lemma C10_witness :
  hasDeletedAt User = false
  /\ optProp groupByTake1000 "take" = VNum 1000
  /\ exists a,
       buildCall (generateHandlerCode "groupBy" "User" "groupByUser" cfgPrefixed User)
                 (envReturning (VArr [])) groupByTake1000
       = Some (mkCall "user" "groupBy" (VObj a))
       /\ field a "take" = VNum 500.
Proof.
  split; [reflexivity |]. split; [reflexivity |].
  destruct (C10_groupBy_take_capped cfgPrefixed User "User" "groupByUser"
              (envReturning (VArr [])) groupByTake1000 1000 eq_refl eq_refl)
    as [Hgroup _].
  exact Hgroup.
Defined.

(** On [Post] the soft-delete read template forwards [take] uncapped. *)
Example groupBy_take_uncapped_on_soft_delete :
  buildCall (generateHandlerCode "groupBy" "Post" "groupByPost" cfgPrefixed Post)
    (envReturning (VArr [])) groupByTake1000
  = Some (mkCall "post" "groupBy"
            (VObj [ ("by", VArr [VStr "name"]); ("take", VNum 1000);
                    ("where", VObj [("deletedAt", VNull)]) ])).
Proof. reflexivity. Qed.

(* ================================================================== *)
(** * Further properties of the generator *)
(* ================================================================== *)

(** Case analysis of a string against the literals it is compared with: in
    the branch where a comparison succeeds the string is replaced by the
    literal. *)
Ltac string_cases op :=
  repeat match goal with
         | |- context [String.eqb op ?lit] =>
             let E := fresh "E" in
             destruct (String.eqb op lit) eqn:E;
             [ apply String.eqb_eq in E; subst op | ]
         end.

(** ** Operation tables (operation-utils.ts) *)

(** X1.  On every name that is not inherited from [Object.prototype],
    [getPrismaMethodName] is the identity: its table maps each of the
    thirteen operations to itself and every other such name falls through.
    (On an inherited name, [constructor] say, the table yields the
    inherited function.) *)
Theorem getPrismaMethodName_identity :
  forall opType : string,
  JsDomain.inheritedName opType = false ->
  OperationUtils.getPrismaMethodName opType = opType.
Proof.
  intros opType _. unfold OperationUtils.getPrismaMethodName, Js.lookup.
  string_cases opType; reflexivity.
Qed.

Lemma getPrismaMethodName_identity_witness :
  JsDomain.inheritedName "findUniqueOrThrow" = false
  /\ OperationUtils.getPrismaMethodName "findUniqueOrThrow" = "findUniqueOrThrow".
Proof.
  split; [reflexivity |].
  apply (getPrismaMethodName_identity "findUniqueOrThrow"). reflexivity.
Defined.

(** X2.  [getHttpMethod] answers GET exactly for the operations
    [supportsCaching] lists as reads; every other name, the unknown ones
    included, gets a non-GET method. *)
Theorem getHttpMethod_GET_iff_cacheable :
  forall opType : string,
  String.eqb (RestMetadata.getHttpMethod opType) "GET"
  = RestMetadata.supportsCaching opType.
Proof.
  intros opType.
  unfold RestMetadata.getHttpMethod, RestMetadata.supportsCaching,
    Js.includes, Js.lookup, existsb.
  string_cases opType; reflexivity.
Qed.

(** X3.  The read list of operation-utils ([supportsCaching]) and the write
    list of the shield generator ([isWriteOperation]) partition the thirteen
    operations of [operationMap]: a name is in one of the two lists exactly
    when the table knows it, and never in both. *)
Theorem read_write_partition :
  forall opType : string,
  RestMetadata.supportsCaching opType || ShieldGenerator.isWriteOperation opType
  = Js.includes (map fst operationMap) opType
  /\ RestMetadata.supportsCaching opType && ShieldGenerator.isWriteOperation opType
     = false.
Proof.
  intros opType.
  unfold RestMetadata.supportsCaching, ShieldGenerator.isWriteOperation,
    Js.includes, operationMap, map, existsb, fst.
  string_cases opType; split; reflexivity.
Qed.

(** X4.  For every operation name that is not inherited from
    [Object.prototype], known to the path table or not, the REST path
    starts with "/" followed by the lower-cased model name and "s". *)
Theorem getRestPath_prefix :
  forall opType modelName : string,
  JsDomain.inheritedName opType = false ->
  exists rest,
    RestMetadata.getRestPath opType modelName
    = "/" ++ Js.toLowerCase modelName ++ "s" ++ rest.
Proof.
  intros opType modelName _.
  assert (Happ : forall a b c : string, (a ++ b) ++ c = a ++ b ++ c).
  { intros a b c. induction a as [| x a IH]; simpl; [reflexivity | now rewrite IH]. }
  unfold RestMetadata.getRestPath, Js.lookup. cbv zeta.
  string_cases opType; cbn [Js.nonEmpty append];
    first [ now exists "" | eexists; rewrite Happ; reflexivity ].
Qed.

Lemma getRestPath_prefix_witness :
  JsDomain.inheritedName "findFirst" = false
  /\ exists rest,
       RestMetadata.getRestPath "findFirst" "User" = "/" ++ "user" ++ "s" ++ rest.
Proof.
  split; [reflexivity |].
  exact (getRestPath_prefix "findFirst" "User" eq_refl).
Defined.

(** X5.  An operation name that is not inherited from [Object.prototype]
    has an input type exactly when [operationMap] knows it, and an output
    type exactly when it is known and is not aggregate. *)
Theorem io_types_defined :
  forall opType modelName : string,
  JsDomain.inheritedName opType = false ->
  (match OperationUtils.getInputTypeByOpName opType modelName with
   | Some _ => true | None => false end)
  = Js.includes (map fst operationMap) opType
  /\ (match OperationUtils.getOutputTypeByOpName opType modelName with
      | Some _ => true | None => false end)
     = Js.includes (map fst operationMap) opType
       && negb (String.eqb opType "aggregate").
Proof.
  intros opType modelName _.
  unfold OperationUtils.getInputTypeByOpName, OperationUtils.getOutputTypeByOpName,
    Js.includes, operationMap, map, existsb, fst, Js.lookup.
  string_cases opType; split; reflexivity.
Qed.

Lemma io_types_defined_witness :
  JsDomain.inheritedName "aggregate" = false
  /\ OperationUtils.getInputTypeByOpName "aggregate" "User" <> None
  /\ OperationUtils.getOutputTypeByOpName "aggregate" "User" = None.
Proof.
  split; [reflexivity |].
  destruct (io_types_defined "aggregate" "User" eq_refl) as [Hin Hout].
  split.
  - intros Hnone. rewrite Hnone in Hin. discriminate Hin.
  - destruct (OperationUtils.getOutputTypeByOpName "aggregate" "User");
      [discriminate Hout | reflexivity].
Defined.

(** ** Procedure synthesis (code-generator.ts) *)

Lemma NoDup_snoc (l : list string) (x : string) :
  NoDup l -> ~ In x l -> NoDup (l ++ [x])%list.
Proof.
  induction l as [| y r IH]; intros Hnd Hx; simpl.
  - constructor; [intros [] | constructor].
  - inversion Hnd as [| ? ? Hy Hr]; subst. constructor.
    + intros Hin. apply in_app_or in Hin. destruct Hin as [Hin | [<- | []]].
      * now apply Hy.
      * apply Hx. now left.
    + apply IH; [assumption |]. intros Hin. apply Hx. now right.
Qed.

Lemma segment_is_operationOf (baseOpType : string) :
  match Js.lookup opToSegment baseOpType with
  | Some sgm => sgm
  | None => baseOpType
  end = operationOf baseOpType.
Proof.
  unfold operationOf, opToSegment, operationMap, Js.lookup.
  string_cases baseOpType; reflexivity.
Qed.

Section ProcedureLoops.

Variables (config : Config) (model : PrismaModel).

(** What both loops keep true of their state: no operation is recorded
    twice, and every pushed procedure is the one [generateSingleProcedure]
    builds for its own base operation. *)
Lemma emit_keeps (opName opType baseOpType : string) (st : GenState) :
  NoDup (generatedOperations st) ->
  Forall (fun p => p = generateSingleProcedure config (m_name model)
                        (p_operationName p) (p_opType p) (p_baseOpType p) model)
         (procedures st) ->
  Js.includes (generatedOperations st) baseOpType = false ->
  NoDup (generatedOperations (emit config model opName opType baseOpType st))
  /\ Forall (fun p => p = generateSingleProcedure config (m_name model)
                           (p_operationName p) (p_opType p) (p_baseOpType p) model)
            (procedures (emit config model opName opType baseOpType st)).
Proof.
  intros Hnd Hall Hnew. split.
  - simpl. apply NoDup_snoc; [assumption |]. now apply includes_false_not_In.
  - simpl. apply Forall_app. split; [assumption |]. constructor; [reflexivity | constructor].
Qed.

Lemma stepEntry_keeps (st : GenState) (entry : string * string) :
  NoDup (generatedOperations st) ->
  Forall (fun p => p = generateSingleProcedure config (m_name model)
                        (p_operationName p) (p_opType p) (p_baseOpType p) model)
         (procedures st) ->
  NoDup (generatedOperations (stepEntry config model st entry))
  /\ Forall (fun p => p = generateSingleProcedure config (m_name model)
                           (p_operationName p) (p_opType p) (p_baseOpType p) model)
            (procedures (stepEntry config model st entry)).
Proof.
  intros Hnd Hall. destruct entry as [opType opName]. unfold stepEntry.
  destruct (String.eqb opType "model"); [now split |].
  destruct (Js.includes (generatedOperations st) _) eqn:Hinc; [now split |].
  destruct (OperationUtils.shouldGenerateOperation _ config); [| now split].
  now apply emit_keeps.
Qed.

Lemma stepEssential_keeps (st : GenState) (essentialOp : string) :
  NoDup (generatedOperations st) ->
  Forall (fun p => p = generateSingleProcedure config (m_name model)
                        (p_operationName p) (p_opType p) (p_baseOpType p) model)
         (procedures st) ->
  NoDup (generatedOperations (stepEssential config model st essentialOp))
  /\ Forall (fun p => p = generateSingleProcedure config (m_name model)
                           (p_operationName p) (p_opType p) (p_baseOpType p) model)
            (procedures (stepEssential config model st essentialOp)).
Proof.
  intros Hnd Hall. unfold stepEssential.
  destruct (Js.includes (generatedOperations st) essentialOp) eqn:Hinc;
    [now split |].
  destruct (OperationUtils.shouldGenerateOperation _ config); [| now split].
  now apply emit_keeps.
Qed.

Lemma fold_stepEntry_keeps (entries : list (string * string)) :
  forall st,
  NoDup (generatedOperations st) ->
  Forall (fun p => p = generateSingleProcedure config (m_name model)
                        (p_operationName p) (p_opType p) (p_baseOpType p) model)
         (procedures st) ->
  NoDup (generatedOperations (fold_left (stepEntry config model) entries st))
  /\ Forall (fun p => p = generateSingleProcedure config (m_name model)
                           (p_operationName p) (p_opType p) (p_baseOpType p) model)
            (procedures (fold_left (stepEntry config model) entries st)).
Proof.
  induction entries as [| e r IH]; intros st Hnd Hall; simpl; [now split |].
  destruct (stepEntry_keeps st e Hnd Hall) as [H1 H2]. now apply IH.
Qed.

Lemma fold_stepEssential_keeps (ops : list string) :
  forall st,
  NoDup (generatedOperations st) ->
  Forall (fun p => p = generateSingleProcedure config (m_name model)
                        (p_operationName p) (p_opType p) (p_baseOpType p) model)
         (procedures st) ->
  NoDup (generatedOperations (fold_left (stepEssential config model) ops st))
  /\ Forall (fun p => p = generateSingleProcedure config (m_name model)
                           (p_operationName p) (p_opType p) (p_baseOpType p) model)
            (procedures (fold_left (stepEssential config model) ops st)).
Proof.
  induction ops as [| e r IH]; intros st Hnd Hall; simpl; [now split |].
  destruct (stepEssential_keeps st e Hnd Hall) as [H1 H2]. now apply IH.
Qed.

Lemma stepEntry_monotone (st : GenState) (entry : string * string) (x : string) :
  In x (generatedOperations st) ->
  In x (generatedOperations (stepEntry config model st entry)).
Proof.
  intros Hx. destruct entry as [opType opName]. unfold stepEntry.
  destruct (String.eqb opType "model"); [assumption |].
  destruct (Js.includes (generatedOperations st) _); [assumption |].
  destruct (OperationUtils.shouldGenerateOperation _ config); [| assumption].
  simpl. apply in_or_app. now left.
Qed.

Lemma fold_stepEntry_monotone (entries : list (string * string)) :
  forall st x,
  In x (generatedOperations st) ->
  In x (generatedOperations (fold_left (stepEntry config model) entries st)).
Proof.
  induction entries as [| e r IH]; intros st x Hx; simpl; [assumption |].
  apply IH. now apply stepEntry_monotone.
Qed.

(** The first loop records the base operation of every allow-listed entry
    it visits. *)
Lemma fold_stepEntry_covers (entries : list (string * string)) :
  forall st opType opName,
  In (opType, opName) entries ->
  opType <> "model" ->
  In (Js.replaceFirst "OrThrow" "" opType) (generateModelActions config) ->
  In (Js.replaceFirst "OrThrow" "" opType)
     (generatedOperations (fold_left (stepEntry config model) entries st)).
Proof.
  induction entries as [| e r IH]; intros st opType opName Hin Hne Hallow; simpl;
    [contradiction |].
  destruct Hin as [-> | Hin]; [| now apply (IH _ opType opName)].
  apply fold_stepEntry_monotone. unfold stepEntry.
  apply String.eqb_neq in Hne. rewrite Hne.
  destruct (Js.includes (generatedOperations st) _) eqn:Hinc.
  - now apply includes_In.
  - unfold OperationUtils.shouldGenerateOperation.
    apply includes_In in Hallow. rewrite Hallow.
    simpl. apply in_or_app. right. now left.
Qed.

End ProcedureLoops.

(** The state both loops of [generateModelProcedures] end in. *)
Lemma generateModelProcedures_state (config : Config) (model : PrismaModel)
  (mappings : list ModelMapping) :
  NoDup (generatedOps config model mappings)
  /\ (forall x, In x (generatedOps config model mappings) ->
                In x (generateModelActions config))
  /\ Forall (fun p => p = generateSingleProcedure config (m_name model)
                           (p_operationName p) (p_opType p) (p_baseOpType p) model)
            (generateModelProcedures config model mappings).
Proof.
  unfold generatedOps, generateModelProcedures.
  destruct (find _ mappings) as [operations |];
    [| simpl; repeat split; [constructor | intros x [] | constructor]].
  cbv zeta.
  assert (H0 : map p_baseOpType (procedures (mkGenState [] []))
               = generatedOperations (mkGenState [] [])) by reflexivity.
  assert (A0 : forall x, In x (generatedOperations (mkGenState [] [])) ->
                         In x (generateModelActions config))
    by (intros x []).
  destruct (fold_stepEntry_invariant config model (mm_entries operations)
              _ H0 A0) as [H1 A1].
  destruct (fold_stepEssential_invariant config model essentialOperations
              _ H1 A1) as [H2 A2].
  destruct (fold_stepEntry_keeps config model (mm_entries operations)
              (mkGenState [] []) (NoDup_nil _) (Forall_nil _)) as [N1 F1].
  destruct (fold_stepEssential_keeps config model essentialOperations
              _ N1 F1) as [N2 F2].
  rewrite H2. repeat split; assumption.
Qed.

(** X6.  [generateModelProcedures] never generates an operation twice
    (findUnique and findUniqueOrThrow, say, give one procedure) and never
    generates an operation the allow-list does not name. *)
Theorem generated_operations_distinct_and_allowed :
  forall (config : Config) (model : PrismaModel) (mappings : list ModelMapping),
  NoDup (generatedOps config model mappings)
  /\ (forall x, In x (generatedOps config model mappings) ->
                In x (generateModelActions config)).
Proof.
  intros config model mappings.
  destruct (generateModelProcedures_state config model mappings) as (H1 & H2 & _).
  now split.
Qed.

(** X7.  Every entry of the model's operation mapping, other than the
    [model] key, whose base operation (the key with its first "OrThrow"
    removed) is allow-listed gets a procedure. *)
Theorem mapped_allowed_operation_is_generated :
  forall (config : Config) (model : PrismaModel) (mappings : list ModelMapping)
         (operations : ModelMapping) (opType opName : string),
  find (fun op => String.eqb (mm_model op) (m_name model)) mappings
    = Some operations ->
  In (opType, opName) (mm_entries operations) ->
  opType <> "model" ->
  In (Js.replaceFirst "OrThrow" "" opType) (generateModelActions config) ->
  In (Js.replaceFirst "OrThrow" "" opType) (generatedOps config model mappings).
Proof.
  intros config model mappings operations opType opName Hfind Hin Hne Hallow.
  unfold generatedOps, generateModelProcedures. rewrite Hfind. cbv zeta.
  assert (H0 : map p_baseOpType (procedures (mkGenState [] []))
               = generatedOperations (mkGenState [] [])) by reflexivity.
  assert (A0 : forall x, In x (generatedOperations (mkGenState [] [])) ->
                         In x (generateModelActions config))
    by (intros x []).
  destruct (fold_stepEntry_invariant config model (mm_entries operations)
              _ H0 A0) as [H1 A1].
  destruct (fold_stepEssential_invariant config model essentialOperations
              _ H1 A1) as [H2 _].
  rewrite H2. apply fold_stepEssential_monotone.
  now apply (fold_stepEntry_covers config model _ _ opType opName).
Qed.

Lemma mapped_allowed_operation_is_generated_witness :
  In ("findUniqueOrThrow", "findUniqueUserOrThrow") (mm_entries (mappingFor "User"))
  /\ In "findUnique" (generatedOps cfgPrefixed User modelOperations).
Proof.
  split; [simpl; auto |].
  apply (mapped_allowed_operation_is_generated cfgPrefixed User modelOperations
           (mappingFor "User") "findUniqueOrThrow" "findUniqueUserOrThrow").
  - reflexivity.
  - simpl; auto.
  - discriminate.
  - simpl; auto 20.
Defined.

Lemma append_cancel_l (p a b : string) : p ++ a = p ++ b -> a = b.
Proof.
  induction p as [| c p IH]; simpl; intros H; [assumption |].
  injection H as H. now apply IH.
Qed.

(** On the thirteen operations of [operationMap] the procedure name
    determines the operation, with or without the model prefix. *)
Lemma getProcedureName_injective_on_known (config : Config)
  (modelName x y : string) :
  In x (map fst operationMap) ->
  In y (map fst operationMap) ->
  getProcedureName config x modelName = getProcedureName config y modelName ->
  x = y.
Proof.
  intros Hx Hy. unfold getProcedureName.
  destruct (Js.nonEmpty (if showModelNameInProcedure config
                         then Js.toLowerCase modelName else "")).
  - intros H. apply append_cancel_l in H. revert H.
    simpl in Hx, Hy.
    repeat (destruct Hx as [<- | Hx]; [| try contradiction]);
      repeat (destruct Hy as [<- | Hy]; [| try contradiction]);
      intros H; try reflexivity; discriminate H.
  - simpl in Hx, Hy.
    repeat (destruct Hx as [<- | Hx]; [| try contradiction]);
      repeat (destruct Hy as [<- | Hy]; [| try contradiction]);
      intros H; try reflexivity; discriminate H.
Qed.

(** X9.  When the allow-list names only operations of [operationMap], the
    procedures [generateModelProcedures] emits for a model have pairwise
    distinct names, with or without the model-name prefix.  (The relation
    resolvers that [generateModelRouterContent] appends to them are named
    by [generateRelationProcedures] and are not covered.) *)
Theorem procedure_names_distinct :
  forall (config : Config) (model : PrismaModel) (mappings : list ModelMapping),
  (forall x, In x (generateModelActions config) -> In x (map fst operationMap)) ->
  NoDup (procedureNames config model mappings).
Proof.
  intros config model mappings Hknown.
  destruct (generateModelProcedures_state config model mappings)
    as (Hnd & Hallow & Hall).
  assert (Hnames : procedureNames config model mappings
                   = map (fun b => getProcedureName config b (m_name model))
                         (generatedOps config model mappings)).
  { unfold procedureNames, generatedOps. rewrite map_map.
    apply map_ext_in. intros p Hp. rewrite Forall_forall in Hall.
    now rewrite (Hall p Hp) at 1. }
  rewrite Hnames. apply NoDup_map_NoDup_ForallPairs; [| assumption].
  intros a b Ha Hb Heq.
  apply (getProcedureName_injective_on_known config (m_name model)); auto.
Qed.

Lemma procedure_names_distinct_witness :
  (forall x, In x (generateModelActions cfgPrefixed) -> In x (map fst operationMap))
  /\ NoDup (procedureNames cfgPrefixed User modelOperations).
Proof.
  assert (H : forall x, In x (generateModelActions cfgPrefixed) ->
                        In x (map fst operationMap)).
  { intros x Hx. simpl in Hx. simpl.
    repeat (destruct Hx as [<- | Hx]; [auto 20 |]). contradiction. }
  split; [exact H |].
  exact (procedure_names_distinct cfgPrefixed User modelOperations H).
Defined.

(** ** Shield file (shield-generator.ts) *)

(** X10.  Each of the thirteen keys of a model's rule table resolves to the
    rule configured for the key's bucket (defaultWriteRule for the seven
    write operations, defaultReadRule for the others): [isAuthenticated]
    for "auth", [allow] for "allow" and [deny] for every other value.  A
    permissive rule is thus emitted only for the literal "allow". *)
Theorem shield_rule_of_bucket :
  forall (config : Config) (model : PrismaModel) (prismaOp shieldOp : string),
  In (prismaOp, shieldOp) ShieldGenerator.operationMappings ->
  ShieldGenerator.ruleFor config model shieldOp
  = Some (if String.eqb (if ShieldGenerator.isWriteOperation prismaOp
                         then defaultWriteRule config
                         else defaultReadRule config) "auth"
          then IsAuthenticated
          else if String.eqb (if ShieldGenerator.isWriteOperation prismaOp
                              then defaultWriteRule config
                              else defaultReadRule config) "allow"
               then Allow
               else Deny).
Proof.
  intros config model prismaOp shieldOp Hin.
  unfold ShieldGenerator.operationMappings in Hin. simpl in Hin.
  repeat (destruct Hin as [Hin | Hin];
          [ injection Hin as <- <-;
            unfold ShieldGenerator.ruleFor;
            cbn [ShieldGenerator.generateModelShieldConfig s_operations map
                 ShieldGenerator.operationMappings Js.lookup];
            cbn -[resolveRule ShieldGenerator.generateRulesForModel append];
            first [ rewrite resolve_canRead | rewrite resolve_canWrite ];
            match goal with
            | |- context [String.eqb ?v "auth"] =>
                let Ed := fresh "Ed" in
                let El := fresh "El" in
                destruct (String.eqb v "auth"), (String.eqb v "deny") eqn:Ed,
                         (String.eqb v "allow") eqn:El; try reflexivity;
                apply String.eqb_eq in Ed; apply String.eqb_eq in El;
                rewrite Ed in El; discriminate El
            end
          | ]).
  contradiction.
Qed.

Lemma shield_rule_of_bucket_witness :
  In ("delete", "delete") ShieldGenerator.operationMappings
  /\ ShieldGenerator.ruleFor cfgPrefixed User "delete" = Some IsAuthenticated.
Proof.
  split; [simpl; auto 20 |].
  apply (shield_rule_of_bucket cfgPrefixed User "delete" "delete").
  simpl; auto 20.
Defined.

Lemma canRead_eqb (a b : string) :
  String.eqb ("canRead" ++ a) ("canRead" ++ b) = String.eqb a b.
Proof. reflexivity. Qed.

Lemma canWrite_eqb (a b : string) :
  String.eqb ("canWrite" ++ a) ("canWrite" ++ b) = String.eqb a b.
Proof. reflexivity. Qed.

Lemma canWrite_neq_canRead (a b : string) :
  String.eqb ("canWrite" ++ a) ("canRead" ++ b) = false.
Proof. reflexivity. Qed.

Lemma canRead_neq_canWrite' (a b : string) :
  String.eqb ("canRead" ++ a) ("canWrite" ++ b) = false.
Proof. reflexivity. Qed.

Lemma resolve_canRead_all (config : Config) (models : list PrismaModel)
  (model : PrismaModel) :
  In model models ->
  resolveRule (ShieldFile.generateModelRules config models)
              ("canRead" ++ m_name model)
  = resolveRule (ShieldGenerator.generateRulesForModel config model)
                ("canRead" ++ m_name model).
Proof.
  rewrite resolve_canRead.
  induction models as [| m0 r IH]; intros Hin; [contradiction |].
  unfold ShieldFile.generateModelRules, resolveRule,
    ShieldGenerator.generateRulesForModel.
  cbn [flat_map app find r_name]. rewrite canRead_eqb.
  destruct (String.eqb (m_name m0) (m_name model)) eqn:E; [reflexivity |].
  rewrite canWrite_neq_canRead.
  destruct Hin as [-> | Hin]; [now rewrite String.eqb_refl in E |].
  apply IH in Hin. exact Hin.
Qed.

Lemma resolve_canWrite_all (config : Config) (models : list PrismaModel)
  (model : PrismaModel) :
  In model models ->
  resolveRule (ShieldFile.generateModelRules config models)
              ("canWrite" ++ m_name model)
  = resolveRule (ShieldGenerator.generateRulesForModel config model)
                ("canWrite" ++ m_name model).
Proof.
  rewrite resolve_canWrite.
  induction models as [| m0 r IH]; intros Hin; [contradiction |].
  unfold ShieldFile.generateModelRules, resolveRule,
    ShieldGenerator.generateRulesForModel.
  cbn [flat_map app find r_name]. rewrite canRead_neq_canWrite', canWrite_eqb.
  destruct (String.eqb (m_name m0) (m_name model)) eqn:E; [reflexivity |].
  destruct Hin as [-> | Hin]; [now rewrite String.eqb_refl in E |].
  apply IH in Hin. exact Hin.
Qed.

(** X11.  In the shield file of a list of models, every rule constant a
    model's table refers to is declared among the emitted rules, and the
    declaration it resolves to is the one generated for that model. *)
Theorem shield_rules_declared :
  forall (config : Config) (models : list PrismaModel) (model : PrismaModel)
         (shieldOp ruleName : string),
  In model models ->
  In (shieldOp, ruleName)
     (s_operations (ShieldGenerator.generateModelShieldConfig model)) ->
  resolveRule (ShieldFile.generateModelRules config models) ruleName
  = resolveRule (ShieldGenerator.generateRulesForModel config model) ruleName
  /\ resolveRule (ShieldFile.generateModelRules config models) ruleName <> None.
Proof.
  intros config models model shieldOp ruleName Hmodel Hin.
  assert (Hname : ruleName = "canRead" ++ m_name model
                  \/ ruleName = "canWrite" ++ m_name model).
  { simpl in Hin.
    repeat (destruct Hin as [Hin | Hin]; [injection Hin as _ <-; auto |]).
    contradiction. }
  destruct Hname as [-> | ->].
  - rewrite resolve_canRead_all by assumption. split; [reflexivity |].
    rewrite resolve_canRead. discriminate.
  - rewrite resolve_canWrite_all by assumption. split; [reflexivity |].
    rewrite resolve_canWrite. discriminate.
Qed.

Lemma shield_rules_declared_witness :
  In Post [User; Post]
  /\ In ("list", "canReadPost")
        (s_operations (ShieldGenerator.generateModelShieldConfig Post))
  /\ resolveRule (ShieldFile.generateModelRules cfgPrefixed [User; Post])
                 "canReadPost" <> None.
Proof.
  split; [simpl; auto |]. split; [simpl; auto |].
  apply (shield_rules_declared cfgPrefixed [User; Post] Post "list" "canReadPost").
  - simpl; auto.
  - simpl; auto.
Defined.

(** X12.  The model keys of the shield ([toLowerCamelCase] of the model
    name) coincide with the keys of the app router ([toLowerCase] of the
    model name) exactly when no model name has an upper-case letter after
    its first character. *)
Theorem shield_keys_match_router_keys :
  forall (pluralize : string -> string) (models : list PrismaModel),
  map s_modelKey (ShieldFile.generateShieldConfig models)
  = map fst (AppRouter.generateAppRouter pluralize models)
  <-> Forall (fun model => Js.toLowerCase (Js.slice1 (m_name model))
                           = Js.slice1 (m_name model)) models.
Proof.
  intros pluralize models.
  assert (Hone : forall n : string,
            ShieldGenerator.toLowerCamelCase n = Js.toLowerCase n
            <-> Js.toLowerCase (Js.slice1 n) = Js.slice1 n).
  { intros [| c r]; simpl; [now split |]. split.
    - intros H. injection H as H. now symmetry.
    - intros H. now rewrite H. }
  induction models as [| m r IH]; simpl.
  - split; [constructor | reflexivity].
  - split.
    + intros H. injection H as Hm Hr. constructor.
      * now apply Hone.
      * now apply IH.
    + intros H. inversion H as [| ? ? Hm Hr]; subst. f_equal.
      * now apply Hone.
      * now apply IH.
Qed.

(** ** Emitted handlers (code-generation-utils.ts, [generateHandlerCode]) *)

Ltac solve_call H :=
  repeat match type of H with
         | context [bind ?x _] =>
             let E := fresh "E" in destruct x eqn:E; cbn [bind] in H
         end;
  try discriminate H; injection H as <-; cbn [c_method]; reflexivity.

Lemma handler_call_method_aux (config : Config) (model : PrismaModel)
  (modelName operationName op : string) (env : Env) (input : value) (c : Call) :
  buildCall (generateHandlerCode op modelName operationName config model)
            env input = Some c ->
  c_method c
  = (if hasDeletedAt model && String.eqb op "delete" then "update"
     else if hasDeletedAt model && String.eqb op "deleteMany" then "updateMany"
     else op).
Proof.
  unfold buildCall, generateHandlerCode. cbn [h_call h_modelVar].
  unfold selectCall. cbv zeta.
  unfold OperationUtils.getPrismaMethodName, Js.lookup,
    Js.includes, softReadOps, existsb, selectInputParam.
  destruct (hasDeletedAt model) eqn:Hd;
    rewrite ?orb_true_r, ?andb_false_r; cbn [andb orb];
    string_cases op; cbn; intros H; solve_call H.
Qed.

(** X13.  For an operation name that is not inherited from
    [Object.prototype] and a caller's [where] that is a plain object or a
    primitive (absent included), whatever the configuration and the rest of
    the input, a handler that reaches the data layer calls the method of its
    own operation name; the only exceptions are delete and deleteMany on a
    model with a [deletedAt] field, which call [update] and [updateMany].
    On such a model no handler calls [delete] or [deleteMany]. *)
Theorem handler_call_method :
  forall (config : Config) (model : PrismaModel)
         (modelName operationName op : string) (env : Env) (input : value)
         (c : Call),
  JsDomain.inheritedName op = false ->
  JsDomain.plainOrPrimitive (field (spread input) "where") = true ->
  buildCall (generateHandlerCode op modelName operationName config model)
            env input = Some c ->
  c_method c
  = (if hasDeletedAt model && String.eqb op "delete" then "update"
     else if hasDeletedAt model && String.eqb op "deleteMany" then "updateMany"
     else op)
  /\ (hasDeletedAt model = true ->
      c_method c <> "delete" /\ c_method c <> "deleteMany").
Proof.
  intros config model modelName operationName op env input c _ _ H.
  pose proof (handler_call_method_aux config model modelName operationName op
                env input c H) as Hmeth.
  split; [assumption |].
  intros Hd. rewrite Hmeth, Hd. cbn [andb].
  destruct (String.eqb op "delete") eqn:E1; [split; discriminate |].
  destruct (String.eqb op "deleteMany") eqn:E2; [split; discriminate |].
  split; now apply String.eqb_neq.
Qed.

Lemma handler_call_method_witness :
  JsDomain.inheritedName "deleteMany" = false
  /\ JsDomain.plainOrPrimitive (field (spread (VObj [("where", whereId)])) "where")
     = true
  /\ buildCall (generateHandlerCode "deleteMany" "Post" "deleteManyPost" cfgPrefixed Post)
       (envReturning VNull) (VObj [("where", whereId)])
     = Some (mkCall "post" "updateMany"
               (VObj [("where", whereId);
                      ("data", VObj [("deletedAt", VDate 1700000000000)])]))
  /\ c_method (mkCall "post" "updateMany"
                 (VObj [("where", whereId);
                        ("data", VObj [("deletedAt", VDate 1700000000000)])]))
     = "updateMany".
Proof.
  split; [reflexivity |]. split; [reflexivity |]. split; [reflexivity |].
  destruct (handler_call_method cfgPrefixed Post "Post" "deleteManyPost"
              "deleteMany" (envReturning VNull) (VObj [("where", whereId)])
              _ eq_refl eq_refl eq_refl) as (Hmethod & _).
  exact Hmethod.
Defined.

Lemma inject_spec (input q : value) :
  injectDeletedAtFilter input = Some q ->
  exists w',
    q = VObj (setField (spread input) "where" w')
    /\ optProp w' "deletedAt" <> VUndefined.
Proof.
  unfold injectDeletedAtFilter. cbv zeta.
  set (w := if truthy (field (spread input) "where")
            then field (spread input) "where" else VObj []).
  destruct (getProp w "deletedAt") as [d |] eqn:Eg; cbn [bind]; [| discriminate].
  destruct (isUndefined d) eqn:Eu.
  - destruct (setProp w "deletedAt" VNull) as [v |] eqn:Es; cbn [bind];
      [| discriminate].
    intros [= <-]. exists v. split; [reflexivity |].
    destruct w; simpl in Es; try discriminate. injection Es as <-.
    unfold optProp, getProp. rewrite field_setField_same. discriminate.
  - cbn [bind]. intros [= <-]. exists w. split; [reflexivity |].
    unfold optProp. rewrite Eg. intros ->. discriminate Eu.
Qed.

(** X14.  On a model with a [deletedAt] field, when the caller's [where]
    is a plain object or a primitive (absent included), every read
    (findMany, findFirst, count, aggregate, groupBy, findUnique) that
    reaches the data layer carries a [where] whose [deletedAt] is defined,
    the caller's own or [null], and passes every other argument of the
    caller unchanged. *)
Theorem soft_read_always_filtered :
  forall (config : Config) (model : PrismaModel)
         (modelName operationName op : string) (env : Env) (input : value)
         (c : Call),
  hasDeletedAt model = true ->
  In op ["findMany"; "findFirst"; "count"; "aggregate"; "groupBy"; "findUnique"] ->
  JsDomain.plainOrPrimitive (field (spread input) "where") = true ->
  buildCall (generateHandlerCode op modelName operationName config model)
            env input = Some c ->
  optProp (optProp (c_args c) "where") "deletedAt" <> VUndefined
  /\ (forall k, k <> "where" -> optProp (c_args c) k = field (spread input) k).
Proof.
  intros config model modelName operationName op env input c Hd Hop _.
  pose proof (soft_condition config model Hd) as Hsoft.
  assert (Hread : buildCall (generateHandlerCode op modelName operationName
                               config model) env input
                  = bind (injectDeletedAtFilter input)
                      (fun a => Some (mkCall (Js.toLowerCase modelName)
                                        (OperationUtils.getPrismaMethodName op) a))).
  { unfold buildCall, generateHandlerCode. cbn [h_call h_modelVar].
    destruct Hop as [<- | [<- | [<- | [<- | [<- | [<- | []]]]]]];
      unfold selectCall; cbv zeta; rewrite Hsoft; reflexivity. }
  rewrite Hread.
  destruct (injectDeletedAtFilter input) as [q |] eqn:Eq; cbn [bind];
    [| discriminate].
  intros [= <-]. cbn [c_args].
  destruct (inject_spec input q Eq) as (w' & -> & Hw'). split.
  - unfold optProp at 2. cbn [getProp]. now rewrite field_setField_same.
  - intros k Hk. unfold optProp. cbn [getProp].
    apply field_setField_other. now apply String.eqb_neq.
Qed.

Lemma soft_read_always_filtered_witness :
  hasDeletedAt Post = true
  /\ JsDomain.plainOrPrimitive (field (spread (VObj [("take", VNum 5)])) "where")
     = true
  /\ optProp (optProp (VObj [("take", VNum 5); ("where", VObj [("deletedAt", VNull)])])
                      "where") "deletedAt" <> VUndefined.
Proof.
  split; [reflexivity |]. split; [reflexivity |].
  destruct (soft_read_always_filtered cfgPrefixed Post "Post" "findManyPost"
              "findMany" (envReturning (VArr [])) (VObj [("take", VNum 5)])
              (mkCall "post" "findMany"
                 (VObj [("take", VNum 5); ("where", VObj [("deletedAt", VNull)])]))
              eq_refl (or_introl eq_refl) eq_refl eq_refl) as [Hfilter _].
  exact Hfilter.
Defined.

(** X15.  update and updateMany filter soft-deleted rows only when the
    [enableSoftDeletes] option is on and the model has a [deletedAt] field;
    the filter then replaces whatever [deletedAt] the caller's [where]
    carries by [null].  Otherwise the caller's [where] is passed as it is. *)
Theorem update_soft_filter :
  forall (config : Config) (model : PrismaModel)
         (modelName operationName op : string) (env : Env) (input w d : value),
  op = "update" \/ op = "updateMany" ->
  getProp input "where" = Some w ->
  getProp input "data" = Some d ->
  buildCall (generateHandlerCode op modelName operationName config model)
            env input
  = Some (mkCall (Js.toLowerCase modelName) op
            (VObj [("where",
                    if enableSoftDeletes config && hasDeletedAt model
                    then VObj (setField (spread w) "deletedAt" VNull)
                    else w);
                   ("data", d)]))
  /\ field (setField (spread w) "deletedAt" VNull) "deletedAt" = VNull.
Proof.
  intros config model modelName operationName op env input w d Hop Hw Hdata.
  split; [| apply field_setField_same].
  unfold buildCall, generateHandlerCode. cbn [h_call h_modelVar].
  unfold selectCall, selectInputParam. cbv zeta.
  destruct Hop as [-> | ->];
    destruct (enableSoftDeletes config), (hasDeletedAt model); cbn;
    rewrite Hw, Hdata; reflexivity.
Qed.

Lemma update_soft_filter_witness :
  buildCall (generateHandlerCode "update" "Post" "updateOnePost" cfgSoftDeletes Post)
    (envReturning deletedPost)
    (VObj [("where", VObj [("id", VStr "p1"); ("deletedAt", VDate 5)]);
           ("data", VObj [("title", VStr "New")])])
  = Some (mkCall "post" "update"
            (VObj [("where", VObj [("id", VStr "p1"); ("deletedAt", VNull)]);
                   ("data", VObj [("title", VStr "New")])])).
Proof.
  destruct (update_soft_filter cfgSoftDeletes Post "Post" "updateOnePost" "update"
              (envReturning deletedPost)
              (VObj [("where", VObj [("id", VStr "p1"); ("deletedAt", VDate 5)]);
                     ("data", VObj [("title", VStr "New")])])
              (VObj [("id", VStr "p1"); ("deletedAt", VDate 5)])
              (VObj [("title", VStr "New")])
              (or_introl eq_refl) eq_refl eq_refl) as [Hcall _].
  exact Hcall.
Defined.

(** X16.  Called without input ([undefined] or [null]), the handlers of
    create, update, updateMany, upsert, delete and deleteMany raise a
    TypeError before any data access, whatever the model and configuration;
    those of findMany, findFirst, count, aggregate, groupBy and createMany
    still issue their call. *)
Theorem missing_input :
  forall (config : Config) (model : PrismaModel)
         (modelName operationName op : string) (env : Env) (input : value),
  input = VUndefined \/ input = VNull ->
  (In op ["create"; "update"; "updateMany"; "upsert"; "delete"; "deleteMany"] ->
   runHandler (generateHandlerCode op modelName operationName config model)
              env input = Throw TypeError)
  /\ (In op ["findMany"; "findFirst"; "count"; "aggregate"; "groupBy"; "createMany"] ->
      exists c,
        buildCall (generateHandlerCode op modelName operationName config model)
                  env input = Some c).
Proof.
  intros config model modelName operationName op env input Hin. split.
  - intros Hop. unfold runHandler, buildCall, generateHandlerCode.
    cbn [h_call h_modelVar]. unfold selectCall, selectInputParam. cbv zeta.
    simpl in Hop.
    repeat (destruct Hop as [<- | Hop];
            [ destruct Hin as [-> | ->];
              destruct (enableSoftDeletes config), (hasDeletedAt model);
              reflexivity | ]).
    contradiction.
  - intros Hop. unfold buildCall, generateHandlerCode.
    cbn [h_call h_modelVar]. unfold selectCall, selectInputParam. cbv zeta.
    simpl in Hop.
    repeat (destruct Hop as [<- | Hop];
            [ destruct Hin as [-> | ->];
              destruct (enableSoftDeletes config), (hasDeletedAt model);
              eexists; reflexivity | ]).
    contradiction.
Qed.

Lemma missing_input_witness :
  runHandler (generateHandlerCode "create" "User" "createOneUser" cfgPrefixed User)
    (envReturning VNull) VUndefined = Throw TypeError.
Proof.
  destruct (missing_input cfgPrefixed User "User" "createOneUser" "create"
              (envReturning VNull) VUndefined (or_introl eq_refl)) as [Hthrow _].
  apply Hthrow. simpl; auto.
Defined.

(** X17.  On a model without a [deletedAt] field the group-by handler
    forwards only [by], [where], [orderBy], [having], [take], [skip] and the
    five aggregation selectors: any other key of the input ([select],
    [cursor], [distinct], ...) never reaches the data layer. *)
Theorem groupBy_forwards_only_known_keys :
  forall (config : Config) (model : PrismaModel) (modelName operationName : string)
         (env : Env) (input : value) (k : string),
  hasDeletedAt model = false ->
  Js.includes ["by"; "where"; "orderBy"; "having"; "take"; "skip";
               "_count"; "_sum"; "_avg"; "_min"; "_max"] k = false ->
  exists a,
    buildCall (generateHandlerCode "groupBy" modelName operationName config model)
              env input
    = Some (mkCall (Js.toLowerCase modelName) "groupBy" (VObj a))
    /\ field a k = VUndefined.
Proof.
  intros config model modelName operationName env input k Hplain Hk.
  eexists. split; [now apply buildCall_groupBy_plain |].
  unfold Js.includes, existsb in Hk.
  repeat (apply orb_false_iff in Hk; let E := fresh "E" in destruct Hk as [E Hk]).
  rewrite groupBySelections_other
    by (unfold Js.includes, aggregateSelectors, existsb;
        now rewrite E5, E6, E7, E8, E9).
  unfold groupByPaging. rewrite groupByOrdered_other by assumption.
  unfold groupByCopied. cbv zeta.
  rewrite !field_copyIfTruthy_other, field_condset_other,
    !field_copyIfTruthy_other, field_condset_other by assumption.
  reflexivity.
Qed.

Lemma groupBy_forwards_only_known_keys_witness :
  exists a,
    buildCall (generateHandlerCode "groupBy" "User" "groupByUser" cfgPrefixed User)
              (envReturning (VArr []))
              (VObj [("by", VArr [VStr "name"]); ("cursor", VObj [("id", VStr "u1")])])
    = Some (mkCall "user" "groupBy" (VObj a))
    /\ field a "cursor" = VUndefined.
Proof.
  exact (groupBy_forwards_only_known_keys cfgPrefixed User "User" "groupByUser"
           (envReturning (VArr []))
           (VObj [("by", VArr [VStr "name"]); ("cursor", VObj [("id", VStr "u1")])])
           "cursor" eq_refl eq_refl).
Defined.

(** X19.  On a model without a [deletedAt] field, whatever the input, the
    aggregate call selects at least one of [_count], [_avg], [_sum], [_min],
    [_max]: an aggregate that selects nothing is never sent. *)
Theorem aggregate_always_selects :
  forall (config : Config) (model : PrismaModel) (modelName operationName : string)
         (env : Env) (input : value),
  hasDeletedAt model = false ->
  exists a,
    buildCall (generateHandlerCode "aggregate" modelName operationName config model)
              env input
    = Some (mkCall (Js.toLowerCase modelName) "aggregate" (VObj a))
    /\ existsb (fun k => truthy (field a k)) aggregateSelectors = true.
Proof.
  intros config model modelName operationName env input Hplain.
  rewrite buildCall_aggregate_plain by assumption.
  unfold aggregateArgs.
  set (own := if truthy input then spread input else []).
  destruct (forallb (fun k => negb (truthy (field own k))) aggregateSelectors)
    eqn:Hall.
  - eexists. split; [reflexivity |].
    unfold aggregateSelectors. cbn [existsb].
    now rewrite field_setField_same.
  - eexists. split; [reflexivity |].
    revert Hall. unfold aggregateSelectors. cbn [forallb existsb].
    destruct (truthy (field own "_count")), (truthy (field own "_avg")),
             (truthy (field own "_sum")), (truthy (field own "_min")),
             (truthy (field own "_max")); simpl; intros H;
      try reflexivity; discriminate H.
Qed.

Lemma aggregate_always_selects_witness :
  hasDeletedAt User = false
  /\ exists a,
       buildCall (generateHandlerCode "aggregate" "User" "aggregateUser" cfgPrefixed User)
                 (envReturning VNull) VUndefined
       = Some (mkCall "user" "aggregate" (VObj a))
       /\ existsb (fun k => truthy (field a k)) aggregateSelectors = true.
Proof.
  split; [reflexivity |].
  exact (aggregate_always_selects cfgPrefixed User "User" "aggregateUser"
           (envReturning VNull) VUndefined eq_refl).
Defined.

(** X20.  With the response envelope on, what a handler returns is
    [{ success: true, data, meta: { timestamp, operation } }] where [data]
    is exactly what the same handler returns with the envelope off,
    [timestamp] is the ISO time of the call and [operation] the handler's
    operation name. *)
Theorem envelope_wraps_plain_result :
  forall (config : Config) (model : PrismaModel)
         (modelName operationName op : string) (env : Env) (result : value),
  wrapResponses config = true ->
  let plain := mkConfig (showModelNameInProcedure config)
                 (generateModelActions config) (enableSoftDeletes config) false
                 (defaultReadRule config) (defaultWriteRule config) in
  shapeResult (generateHandlerCode op modelName operationName config model)
              env result
  = VObj [ ("success", VBool true);
           ("data",
            shapeResult (generateHandlerCode op modelName operationName plain model)
                        env result);
           ("meta", VObj [ ("timestamp", VStr (nowIso env));
                           ("operation", VStr op) ]) ].
Proof.
  intros config model modelName operationName op env result Hwrap plain.
  unfold shapeResult, generateHandlerCode. cbn [h_return h_baseOpType].
  unfold selectReturn. rewrite Hwrap. cbn [wrapResponses plain].
  destruct (String.eqb op "count"); reflexivity.
Qed.

Lemma envelope_wraps_plain_result_witness :
  wrapResponses cfgWrapped = true
  /\ shapeResult (generateHandlerCode "count" "User" "countUser" cfgWrapped User)
       (envReturning (VNum 3)) (VNum 3)
     = VObj [ ("success", VBool true);
              ("data", VObj [("count", VNum 3)]);
              ("meta", VObj [ ("timestamp", VStr "2023-11-14T22:13:20.000Z");
                              ("operation", VStr "count") ]) ].
Proof.
  split; [reflexivity |].
  exact (envelope_wraps_plain_result cfgWrapped User "User" "countUser" "count"
           (envReturning (VNum 3)) (VNum 3) eq_refl).
Defined.

(** ** Error mapper: inputs that are no plain objects *)

Lemma indexKey_not_code (i : nat) : String.eqb "code" (indexKey i) = false.
Proof. unfold indexKey. destruct (Nat.to_uint i); reflexivity. Qed.

Lemma indexKey_not_name (i : nat) : String.eqb "name" (indexKey i) = false.
Proof. unfold indexKey. destruct (Nat.to_uint i); reflexivity. Qed.

Lemma arrEntries_no_key (k : string) (l : list value) :
  (forall i, String.eqb k (indexKey i) = false) ->
  forall i, existsb (fun e => String.eqb k (fst e)) (arrEntries l i) = false.
Proof.
  intros Hk. induction l as [| x r IH]; intros i; simpl; [reflexivity |].
  now rewrite Hk, IH.
Qed.

(** X21.  Anything thrown that is not a plain object (a string, a number,
    [null], [undefined], an array, a date) is mapped to
    INTERNAL_SERVER_ERROR. *)
Theorem non_object_maps_to_internal_error :
  forall error : value,
  (forall props, error <> VObj props) ->
  ErrorHandling.prismaErrorMapper error
  = ErrorHandling.ThrowORPC "INTERNAL_SERVER_ERROR".
Proof.
  intros error Hno.
  destruct error as [| | b | n | | s | t | l | ps]; try reflexivity.
  - unfold ErrorHandling.prismaErrorMapper, ErrorHandling.isORPCError,
      ErrorHandling.isPrismaKnownError, ErrorHandling.isPrismaValidationError,
      hasProp.
    rewrite (arrEntries_no_key "code" l indexKey_not_code 0).
    rewrite (arrEntries_no_key "name" l indexKey_not_name 0).
    reflexivity.
  - now contradiction (Hno ps).
Qed.

Lemma non_object_maps_to_internal_error_witness :
  ErrorHandling.prismaErrorMapper (VStr "boom")
  = ErrorHandling.ThrowORPC "INTERNAL_SERVER_ERROR".
Proof.
  apply (non_object_maps_to_internal_error (VStr "boom")).
  intros props. discriminate.
Defined.

(** ** Aggregation eligibility and field queries (model-utils.ts) *)




(** X23.  Every searchable field of a model is also sortable, and the field
    named "id" is never searchable. *)
Theorem searchable_fields_are_sortable :
  forall (model : PrismaModel) (x : string),
  In x (ModelQueries.getSearchableFields model) ->
  In x (ModelQueries.getSortableFields model) /\ x <> "id".
Proof.
  intros model x Hin.
  unfold ModelQueries.getSearchableFields in Hin.
  apply in_map_iff in Hin. destruct Hin as [f [<- Hf]].
  apply filter_In in Hf. destruct Hf as [Hin Hp].
  apply andb_true_iff in Hp. destruct Hp as [Hp Hid].
  apply andb_true_iff in Hp. destruct Hp as [Ht Hl].
  split.
  - unfold ModelQueries.getSortableFields. apply in_map. apply filter_In.
    split; [assumption |]. rewrite Hl, andb_true_r.
    apply includes_In in Ht. apply includes_In.
    unfold ModelQueries.searchableTypes in Ht. unfold ModelQueries.sortableTypes.
    simpl in Ht. simpl.
    repeat (destruct Ht as [<- | Ht]; [auto 10 |]). contradiction.
  - apply negb_true_iff in Hid. now apply String.eqb_neq.
Qed.

Lemma searchable_fields_are_sortable_witness :
  In "email" (ModelQueries.getSearchableFields User)
  /\ In "email" (ModelQueries.getSortableFields User) /\ "email" <> "id".
Proof.
  split; [simpl; auto |].
  apply (searchable_fields_are_sortable User "email"). simpl; auto.
Defined.

(** ** Validation chain (code-generation-utils.ts) *)

Lemma operationSchema_imported (v : Validation.ValidationOptions)
  (baseOpType modelName schema : string) :
  Validation.generateInputValidation v = true ->
  Validation.operationSchema baseOpType modelName = Some schema ->
  In schema (Validation.schemaImports v modelName) /\ baseOpType <> "upsert".
Proof.
  intros Hv. unfold Validation.schemaImports. rewrite Hv. cbn [negb andb].
  unfold Validation.operationSchema, Js.lookup.
  string_cases baseOpType; intros H; try discriminate H; injection H as <-;
    (split; [simpl; auto 20 | discriminate]).
Qed.

(** X24.  An [.input(schema)] part appears in a procedure chain only when
    input validation is on, and then [schema] is one of the names
    [generateSchemaImports] imports for the model; upsert never gets one.
    Conversely every imported schema name is the input schema of some
    operation. *)
Theorem input_schema_is_imported :
  forall (v : Validation.ValidationOptions) (config : Config)
         (params : Procedure) (schema : string),
  (In (Validation.InputPart schema)
      (Validation.generateProcedureCode v config params) ->
   Validation.generateInputValidation v = true
   /\ In schema (Validation.schemaImports v (p_modelName params))
   /\ p_baseOpType params <> "upsert")
  /\ (In schema (Validation.schemaImports v (p_modelName params)) ->
      exists op,
        Validation.operationSchema op (p_modelName params) = Some schema).
Proof.
  intros v config params schema. split.
  - unfold Validation.generateProcedureCode. cbv zeta. intros Hin.
    apply in_app_or in Hin. destruct Hin as [Hin | Hin].
    { simpl in Hin. destruct Hin as [H | [H | []]]; discriminate H. }
    apply in_app_or in Hin. destruct Hin as [Hin | Hin].
    + destruct (Validation.operationSchema (p_baseOpType params) (p_modelName params))
        as [s0 |] eqn:Es; [| contradiction].
      destruct (Validation.generateInputValidation v) eqn:Hv;
        [| contradiction].
      destruct (Js.nonEmpty s0); simpl in Hin; [| contradiction].
      destruct Hin as [H | []]. injection H as ->.
      split; [reflexivity |].
      now apply (operationSchema_imported v (p_baseOpType params)).
    + apply in_app_or in Hin. destruct Hin as [Hin | Hin].
      * destruct (Validation.outputSchemaExpr v (p_baseOpType params)
                    (p_outputType params)); [| contradiction].
        destruct (_ && _); simpl in Hin; [| contradiction].
        destruct Hin as [H | []]. discriminate H.
      * simpl in Hin. destruct Hin as [H | []]. discriminate H.
  - unfold Validation.schemaImports.
    destruct (negb _ && negb _); [contradiction |].
    destruct (Validation.generateInputValidation v); [| contradiction].
    intros Hin. simpl in Hin.
    destruct Hin as [<- | [<- | [<- | [<- | [<- | [<- | [<- | [<- | [<- | [<- |
                    [<- | [<- | []]]]]]]]]]]]].
    + now exists "findMany".
    + now exists "findFirst".
    + now exists "findUnique".
    + now exists "create".
    + now exists "createMany".
    + now exists "update".
    + now exists "updateMany".
    + now exists "delete".
    + now exists "deleteMany".
    + now exists "groupBy".
    + now exists "aggregate".
    + now exists "count".
Qed.

Lemma input_schema_is_imported_witness :
  In (Validation.InputPart "UserCountSchema")
     (Validation.generateProcedureCode (Validation.mkValidation true false "zod")
        cfgPrefixed
        (generateSingleProcedure cfgPrefixed "User" "countUser" "count" "count" User))
  /\ In "UserCountSchema"
        (Validation.schemaImports (Validation.mkValidation true false "zod") "User").
Proof.
  assert (Hin : In (Validation.InputPart "UserCountSchema")
                   (Validation.generateProcedureCode
                      (Validation.mkValidation true false "zod") cfgPrefixed
                      (generateSingleProcedure cfgPrefixed "User" "countUser"
                         "count" "count" User))).
  { cbn. auto. }
  split; [exact Hin |].
  destruct (input_schema_is_imported (Validation.mkValidation true false "zod")
              cfgPrefixed
              (generateSingleProcedure cfgPrefixed "User" "countUser" "count"
                 "count" User) "UserCountSchema") as [Hfwd _].
  destruct (Hfwd Hin) as (_ & Himp & _). exact Himp.
Defined.

(** ** Log level and spinner (logger.ts, orpc-generator.ts) *)

(** X25.  The logger's level is always between the silent level -1 and
    DEBUG = 3; error messages are printed unless the lower-cased
    ORPC_LOG_LEVEL (or ORPC_LOG) is "silent" or "none"; and a recognized
    level there decides alone, whatever DEBUG and the [enableDebugLogging]
    option say. *)
Theorem logger_level :
  forall (e : Logging.LogEnv) (enableDebugLogging : bool),
  (-1 <= Logging.resolveLevel e enableDebugLogging <= 3)%Z
  /\ Logging.prints (Logging.resolveLevel e enableDebugLogging) Logging.ERROR
     = negb (String.eqb (Logging.rawLevel e) "silent"
             || String.eqb (Logging.rawLevel e) "none")
  /\ (forall l, Logging.levelOfRaw (Logging.rawLevel e) = Some l ->
                Logging.resolveLevel e enableDebugLogging = l).
Proof.
  intros e flag. unfold Logging.resolveLevel, Logging.prints.
  generalize (Logging.rawLevel e) as raw. generalize (Logging.dbg e) as d.
  intros d raw.
  destruct raw as [| c r].
  - simpl. destruct (Logging.includesSubstring "orpc" d), flag;
      repeat split; try discriminate; try (vm_compute; intros H; discriminate H).
  - remember (String c r) as raw eqn:Hraw.
    assert (Hne : Js.nonEmpty raw = true) by (subst raw; reflexivity).
    rewrite Hne. clear Hne Hraw c r.
    unfold Logging.levelOfRaw.
    string_cases raw; cbn [orb];
      destruct (Logging.includesSubstring "orpc" d), flag;
      repeat split; try discriminate;
      try (vm_compute; intros H; discriminate H);
      try (intros l H; injection H as <-; reflexivity);
      try (intros l H; discriminate H).
Qed.

(** X26.  With the lower-cased ORPC_LOG_LEVEL (or ORPC_LOG) equal to
    "silent" or "none", the spinner never logs and the logger prints
    nothing, errors included, whatever the other variables and the
    [enableDebugLogging] option. *)
Theorem silent_level_silences_everything :
  forall (e : Logging.LogEnv) (enableDebugLogging : bool) (threshold : Z),
  Logging.rawLevel e = "silent" \/ Logging.rawLevel e = "none" ->
  (0 <= threshold)%Z ->
  Logging.canLog e enableDebugLogging = false
  /\ Logging.prints (Logging.resolveLevel e enableDebugLogging) threshold = false.
Proof.
  intros e flag threshold Hraw Hth.
  unfold Logging.canLog, Logging.explicitlyDisable, Logging.resolveLevel,
    Logging.prints.
  destruct Hraw as [-> | ->]; cbn; rewrite ?orb_true_r;
    (split; [reflexivity | apply Z.leb_gt; lia]).
Qed.

Lemma silent_level_silences_everything_witness :
  Logging.rawLevel (Logging.mkLogEnv (Some "SILENT") None (Some "orpc") None (Some "true"))
    = "silent"
  /\ Logging.canLog
       (Logging.mkLogEnv (Some "SILENT") None (Some "orpc") None (Some "true")) true
     = false.
Proof.
  split; [reflexivity |].
  destruct (silent_level_silences_everything
              (Logging.mkLogEnv (Some "SILENT") None (Some "orpc") None (Some "true"))
              true 0%Z (or_introl eq_refl)) as [Hspinner _].
  - lia.
  - exact Hspinner.
Defined.
